(** * Transit backend, key paths: a shallow embedding of
    [builtin/logical/transit/path_keys.go].

    The file follows the Go source function by function:
    [pathPolicyWrite], [pathPolicyRead] and [extractOpenPGP].  Everything the
    source calls but does not define (the Go standard library, x/crypto, the
    lock manager and the policy type of [sdk/helper/keysutil], the response
    helpers of [sdk/logical]) is either a field of an interface class, so that
    every theorem holds for all behaviours of that collaborator, or a small
    definition of what the call is documented to do. *)

From Stdlib Require Import String Ascii List ZArith NArith Bool Lia.
From Stdlib Require Import Strings.Byte.
Import ListNotations.

Local Open Scope string_scope.
Local Open Scope list_scope.

(** ** Go values *)

(** A Go [[]byte]. *)
Definition bytes := list byte.

(** [string(b)] for a byte slice [b]. *)
Fixpoint string_of_bytes (b : bytes) : string :=
  match b with
  | [] => EmptyString
  | x :: rest => String (ascii_of_byte x) (string_of_bytes rest)
  end.

(** [[]byte(s)] for a string [s]. *)
Fixpoint bytes_of_string (s : string) : bytes :=
  match s with
  | EmptyString => []
  | String c rest => byte_of_ascii c :: bytes_of_string rest
  end.

(** [time.Time], as the package stores it: seconds since 1 January of year 1
    and nanoseconds within the second. *)
Record Time := mkTime { sec : Z; nsec : Z }.

(** [unixToInternal] of package time: seconds from year 1 to 1970. *)
Definition unixToInternal : Z := 62135596800.

(** [t.IsZero()]. *)
Definition Time_IsZero (t : Time) : bool := (sec t =? 0)%Z && (nsec t =? 0)%Z.

(** [time.Unix(s, 0)], for an epoch whose sum with [unixToInternal] is within
    the range of an int64; beyond it Go wraps the sum around. *)
Definition time_Unix (s : Z) : Time := mkTime (s + unixToInternal) 0.

(** ** Errors *)

(** The [error] values that reach a caller of this file.  An error a library
    returns is kept with the package it comes from and its message; it is
    never the sentinel [logical.ErrInvalidRequest]. *)
Inductive error : Type :=
| ErrInvalidRequest                                (* logical.ErrInvalidRequest *)
| fmt_Errorf (msg : string)                        (* fmt.Errorf, formatted *)
| errwrap_Wrapf (msg : string) (inner : error)     (* errwrap.Wrapf *)
| LibraryError (pkg : string) (msg : string).

(** [errwrap.Contains(err, ErrInvalidRequest.Error())]: the sentinel itself or
    an error wrapping it. *)
Fixpoint wraps_ErrInvalidRequest (e : error) : bool :=
  match e with
  | ErrInvalidRequest => true
  | errwrap_Wrapf _ inner => wraps_ErrInvalidRequest inner
  | fmt_Errorf _ | LibraryError _ _ => false
  end.

(** ** The OpenPGP codec adapter *)

(** [openpgp.PublicKeyType] and [openpgp.PrivateKeyType]. *)
Definition openpgp_PublicKeyType : string := "PGP PUBLIC KEY BLOCK".
Definition openpgp_PrivateKeyType : string := "PGP PRIVATE KEY BLOCK".

(** An [*openpgp.Entity]: the keys of its [Identities] map in the order a
    [range] over the map visits them, and its packets. *)
Record Entity := mkEntity { Identities : list string; Packets : bytes }.

(** What [extractOpenPGP] asks of x/crypto/openpgp and its armor package.
    [ArmorWriter] is the state of the [io.WriteCloser] that [armor.Encode]
    returns over the local buffer [buf]; [Buffer_String] is [buf.String()]
    after the calls made on that writer. *)
Class OpenPGPLib : Type := {
  ArmorWriter : Type;
  openpgp_ReadKeyRing : bytes -> list Entity + string;
  armor_Encode : string -> ArmorWriter + string;
  Entity_Serialize : Entity -> ArmorWriter -> ArmorWriter * option string;
  ArmorWriter_Write : ArmorWriter -> bytes -> ArmorWriter * option string;
  ArmorWriter_Close : ArmorWriter -> ArmorWriter * option string;
  Buffer_String : ArmorWriter -> string
}.

Section ExtractOpenPGP.
Context {PGP : OpenPGPLib}.

(** The first key a [range] over [entity.Identities] yields, [""] when the map
    is empty (the [for ... { identity = idkey; break }] loop). *)
Definition first_identity (entity : Entity) : string :=
  match Identities entity with
  | [] => ""
  | idkey :: _ => idkey
  end.

(** [extractOpenPGP(key, blockType) (retkey, identity string, err error)]. *)
Definition extractOpenPGP (key : bytes) (blockType : string)
  : string * string * option error :=
  match openpgp_ReadKeyRing key with
  | inr e => ("", "", Some (LibraryError "openpgp" e))
  | inl [] =>
      ("", "", Some (fmt_Errorf "No entities found in OpenPGP key ring"))
  | inl (entity :: _) =>
      let identity := first_identity entity in
      if String.eqb blockType openpgp_PublicKeyType then
        match armor_Encode blockType with
        | inr e => ("", "", Some (LibraryError "armor" e))
        | inl pgpArmored =>
            let '(w1, err) := Entity_Serialize entity pgpArmored in
            match err with
            | Some _ =>
                ("", "",
                 Some (fmt_Errorf "Issue Serializing OpenPGP Armored information"))
            | None =>
                let '(w2, cerr) := ArmorWriter_Close w1 in
                match cerr with
                | Some _ =>
                    ("", "",
                     Some (fmt_Errorf
                             "Issue Serializing OpenPGP Armored information"))
                | None => (Buffer_String w2, identity, None)
                end
            end
        end
      else if String.eqb blockType openpgp_PrivateKeyType then
        match armor_Encode blockType with
        | inr e => ("", "", Some (LibraryError "armor" e))
        | inl pgpArmored =>
            (* pgpArmored.Write(key): both results are dropped *)
            let '(w1, _) := ArmorWriter_Write pgpArmored key in
            let '(w2, cerr) := ArmorWriter_Close w1 in
            match cerr with
            | Some _ =>
                (* return "", "", err: err is the nil that armor.Encode gave *)
                ("", "", None)
            | None => (Buffer_String w2, identity, None)
            end
        end
      else ("", "", Some (fmt_Errorf ("Incorrect blockType " ++ blockType)))
  end.

End ExtractOpenPGP.

(** ** encoding/base64 and encoding/pem, the encoding side *)

(** The alphabet of [base64.StdEncoding]. *)
Definition encodeStd : string :=
  "ABCDEFGHIJKLMNOPQRSTUVWXYZabcdefghijklmnopqrstuvwxyz0123456789+/".

(** The character of a 6-bit value. *)
Definition b64_char (n : N) : ascii :=
  match String.get (N.to_nat n) encodeStd with
  | Some c => c
  | None => "="%char
  end.

(** [base64.StdEncoding.EncodeToString]: three bytes give four characters, a
    last group of one or two bytes is padded with [=]. *)
Fixpoint base64_EncodeToString (src : bytes) : string :=
  match src with
  | [] => ""
  | [a] =>
      let x := Byte.to_N a in
      String (b64_char (x / 4))
        (String (b64_char ((x mod 4) * 16)) "==")
  | [a; b] =>
      let x := Byte.to_N a in
      let y := Byte.to_N b in
      String (b64_char (x / 4))
        (String (b64_char ((x mod 4) * 16 + y / 16))
           (String (b64_char ((y mod 16) * 4)) "="))
  | a :: b :: c :: rest =>
      let x := Byte.to_N a in
      let y := Byte.to_N b in
      let z := Byte.to_N c in
      String (b64_char (x / 4))
        (String (b64_char ((x mod 4) * 16 + y / 16))
           (String (b64_char ((y mod 16) * 4 + z / 64))
              (String (b64_char (z mod 64)) (base64_EncodeToString rest))))
  end%N.


(** A [pem.Block] without headers. *)
Module pem.
Record Block := mkBlock { Type_ : string; Bytes : bytes }.
End pem.

Definition newline : string := String (ascii_of_nat 10) "".

(** The line breaker of encoding/pem: a line feed after every 64 characters
    and after a last, shorter line. *)
Fixpoint pem_lineBreaker (used : nat) (s : string) : string :=
  match s with
  | EmptyString => if Nat.eqb used 0 then "" else newline
  | String c rest =>
      if Nat.eqb used 64
      then (newline ++ String c (pem_lineBreaker 1 rest))%string
      else String c (pem_lineBreaker (S used) rest)
  end.

(** [pem.EncodeToMemory] of encoding/pem on a block without headers. *)
Definition go_pem_EncodeToMemory (b : pem.Block) : option bytes :=
  Some (bytes_of_string
          ("-----BEGIN " ++ pem.Type_ b ++ "-----" ++ newline
           ++ pem_lineBreaker 0 (base64_EncodeToString (pem.Bytes b))
           ++ "-----END " ++ pem.Type_ b ++ "-----" ++ newline)%string).

(** ** The key policy, as this file reads it *)

(** [keysutil.KeyType]: the constants the source names, and any other value of
    the underlying integer type. *)
Inductive KeyType : Type :=
| KeyType_AES128_GCM96
| KeyType_AES256_GCM96
| KeyType_ChaCha20_Poly1305
| KeyType_ECDSA_P256
| KeyType_ECDSA_P384
| KeyType_ECDSA_P521
| KeyType_ED25519
| KeyType_RSA2048
| KeyType_RSA4096
| KeyType_OpenPGP
| KeyType_other (n : Z).

(** The [KDF] selector of a policy. *)
Inductive KDF : Type :=
| Kdf_hmac_sha256_counter
| Kdf_hkdf_sha256
| Kdf_other (n : Z).

(** [rsa.PublicKey] and [rsa.PrivateKey]. *)
Module rsa.
Record PublicKey := mkPublicKey { N : Z; E : Z }.
Record PrivateKey := mkPrivateKey { Public : PublicKey; D : Z }.
End rsa.

(** [keysutil.KeyEntry], the fields read here.  [RSAKey] is a pointer. *)
Module KeyEntry.
Record t := mk {
  Key : bytes;
  DeprecatedCreationTime : Z;
  CreationTime : Time;
  FormattedPublicKey : string;
  RSAKey : option rsa.PrivateKey
}.
End KeyEntry.

(** [keysutil.BackupInfo] and [keysutil.RestoreInfo]. *)
Module BackupInfo.
Record t := mk { Time_ : Time; Version : Z }.
End BackupInfo.

(** [keysutil.Policy], the fields read here.  [Keys] is a Go map from the
    version, as a string, to its entry: the list holds its bindings in the
    order the [range] of the call at hand visits them, and a Go map binds a
    key once. *)
Module Policy.
Record t := mk {
  Name : string;
  Type_ : KeyType;
  Derived : bool;
  DeletionAllowed : bool;
  MinAvailableVersion : Z;
  MinDecryptionVersion : Z;
  MinEncryptionVersion : Z;
  LatestVersion : Z;
  Exportable : bool;
  AllowPlaintextBackup : bool;
  BackupInfo : option BackupInfo.t;
  RestoreInfo : option BackupInfo.t;
  KDF_ : KDF;
  ConvergentEncryption : bool;
  ConvergentVersion : Z;
  RealName : string;
  Email : string;
  Comment : string;
  Keys : list (string * KeyEntry.t)
}.
End Policy.

(** [keysutil.PolicyRequest]; its [Storage] is part of the world the lock
    manager works on. *)
Module PolicyRequest.
Record t := mk {
  Upsert : bool;
  Name : string;
  RealName : string;
  Email : string;
  Comment : string;
  KeyType_ : KeyType;
  Derived : bool;
  Convergent : bool;
  Exportable : bool;
  AllowPlaintextBackup : bool
}.
End PolicyRequest.

(** ** Requests and responses *)

(** The fields of the path schema, as [d.Get] returns them. *)
Module FieldData.
Record t := mk {
  name : string;
  real_name : string;
  comment : string;
  email : string;
  type : string;
  derived : bool;
  convergent_encryption : bool;
  exportable : bool;
  allow_plaintext_backup : bool;
  context : string
}.
End FieldData.

(** The values stored under [resp.Data]. *)
#[warnings="-register-all"]
Inductive value : Type :=
| VString (s : string)
| VBool (b : bool)
| VInt (n : Z)
| VTime (t : Time)
| VMap (m : list (string * value))                       (* map[string]interface{} *)
| VInt64Map (m : list (string * Z))                      (* map[string]int64 *)
| VKeysMap (m : list (string * list (string * value))).  (* map[string]map[string]interface{} *)

(** [m[k] = v] on a map kept as a list of bindings. *)
Fixpoint Data_set (m : list (string * value)) (k : string) (v : value)
  : list (string * value) :=
  match m with
  | [] => [(k, v)]
  | (k', v') :: rest =>
      if String.eqb k' k then (k, v) :: rest else (k', v') :: Data_set rest k v
  end.

(** [m[k]]. *)
Fixpoint Data_get (m : list (string * value)) (k : string) : option value :=
  match m with
  | [] => None
  | (k', v') :: rest => if String.eqb k' k then Some v' else Data_get rest k
  end.

(** [logical.Response]: its data and its warnings. *)
Module Response.
Record t := mk { Data : list (string * value); Warnings : list string }.
End Response.

(** Modelled from the spec: [logical.ErrorResponse] of sdk/logical, which is
    not in this file: the response that reports a failure of the request to
    the caller, holding the message alone. *)
Definition logical_ErrorResponse (text : string) : Response.t :=
  Response.mk [("error", VString text)] [].

(** Modelled from the spec: [Response.AddWarning] of sdk/logical: the
    warning is added to the warnings of the response. *)
Definition AddWarning (resp : Response.t) (warning : string) : Response.t :=
  Response.mk (Response.Data resp) (Response.Warnings resp ++ [warning]).

(** Modelled from the spec: [Response.IsError] of sdk/logical: the response
    holds an error message and nothing else. *)
Definition IsError (resp : option Response.t) : bool :=
  match resp with
  | Some r =>
      match Response.Data r with
      | [(k, _)] => String.eqb k "error"
      | _ => false
      end
  | None => false
  end.

(** What a handler gives back: the two results of the Go function, or a
    run-time panic. *)
Inductive outcome : Type :=
| Returns (resp : option Response.t) (err : option error)
| Panics (msg : string).

(** The caller is told that the request was invalid: an error response, or an
    error that is or wraps [logical.ErrInvalidRequest]. *)
Definition invalid_request (o : outcome) : bool :=
  match o with
  | Returns resp err =>
      IsError resp
      || match err with Some e => wraps_ErrInvalidRequest e | None => false end
  | Panics _ => false
  end.

(** The caller is told that the system failed: an error that does not wrap
    [logical.ErrInvalidRequest], and no response. *)
Definition internal_error (o : outcome) : bool :=
  match o with
  | Returns None (Some e) => negb (wraps_ErrInvalidRequest e)
  | _ => false
  end.

(** The helper type [asymKey] and [structs.New(key).Map()]. *)
Module asymKey.
Record t := mk { Name : string; PublicKey : string; CreationTime : Time }.
Definition Map (key : t) : list (string * value) :=
  [("name", VString (Name key));
   ("public_key", VString (PublicKey key));
   ("creation_time", VTime (CreationTime key))].
End asymKey.

(** One turn of the [range p.Keys] loop of the asymmetric case: the entry
    stored under [retKeys[k]], or the [return nil, err] that leaves the
    handler, or a run-time panic. *)
Inductive turn (A : Type) : Type :=
| Next (a : A)
| Leave (err : error)
| Crash (msg : string).
Arguments Next {A} a.
Arguments Leave {A} err.
Arguments Crash {A} msg.

(** ** What the handlers ask of their collaborators *)

(** The backend [b] and the libraries, seen from this file.  [World] is all
    the state outside the handler: the storage of the request, the cache and
    the locks of the lock manager [b.lm], the random reader.  [lm_GetPolicy]
    is [b.lm.GetPolicy(ctx, polReq, b.GetRandomReader())]; [Policy_DeriveKey]
    is [p.DeriveKey(context, ver, numBytes)]; the methods of [KeyType] are
    those of keysutil.  None of them is in this file, so none is given a
    definition here.  [ed25519_Public] is [ed25519.PrivateKey(k).Public()]
    for a key [k] of 32 bytes or more, always 32 bytes; on a shorter key Go
    panics, which this file does not model: no statement below is about a
    derived key of fewer than 32 bytes. *)
Class Backend : Type := {
  World : Type;
  lm_GetPolicy :
    World -> PolicyRequest.t -> World * (option Policy.t * bool * option error);
  CachingDisabled : World -> bool;
  Policy_Lock : Policy.t -> bool -> World -> World;
  Policy_Unlock : Policy.t -> World -> World;
  Policy_DeriveKey : Policy.t -> bytes -> Z -> Z -> bytes * option error;
  KeyType_zero : KeyType;
  KeyType_String : KeyType -> string;
  EncryptionSupported : KeyType -> bool;
  DecryptionSupported : KeyType -> bool;
  SigningSupported : KeyType -> bool;
  DerivationSupported : KeyType -> bool;
  strconv_Atoi : string -> Z + string;
  strconv_Quote : string -> string;
  base64_DecodeString : string -> bytes + string;
  x509_MarshalPKIXPublicKey : rsa.PublicKey -> bytes + string;
  pem_EncodeToMemory : pem.Block -> option bytes;
  ed25519_Public : bytes -> bytes;
  ed25519_PublicKeySize :
    forall priv, List.length (ed25519_Public priv) = 32%nat
}.

Section Handlers.
Context {B : Backend} {PGP : OpenPGPLib}.

(** *** pathPolicyWrite *)

(** The [switch keyType] of [pathPolicyWrite]; [None] is its default case. *)
Definition keyType_of_string (keyType : string) : option KeyType :=
  if String.eqb keyType "aes128-gcm96" then Some KeyType_AES128_GCM96
  else if String.eqb keyType "aes256-gcm96" then Some KeyType_AES256_GCM96
  else if String.eqb keyType "chacha20-poly1305" then Some KeyType_ChaCha20_Poly1305
  else if String.eqb keyType "ecdsa-p256" then Some KeyType_ECDSA_P256
  else if String.eqb keyType "ecdsa-p384" then Some KeyType_ECDSA_P384
  else if String.eqb keyType "ecdsa-p521" then Some KeyType_ECDSA_P521
  else if String.eqb keyType "ed25519" then Some KeyType_ED25519
  else if String.eqb keyType "rsa-2048" then Some KeyType_RSA2048
  else if String.eqb keyType "rsa-4096" then Some KeyType_RSA4096
  else if String.eqb keyType "openpgp" then Some KeyType_OpenPGP
  else None.

(** The local [resp] of [pathPolicyWrite] when the function reaches its last
    statement. *)
Definition pathPolicyWrite_resp (upserted : bool) (name : string) : Response.t :=
  let resp := Response.mk [] [] in
  if negb upserted
  then AddWarning resp ("key " ++ name ++ " already existed")%string
  else resp.

(** [b.pathPolicyWrite(ctx, req, d)]. *)
Definition pathPolicyWrite (w : World) (d : FieldData.t) : World * outcome :=
  let name := FieldData.name d in
  let realName := FieldData.real_name d in
  let email := FieldData.email d in
  let comment := FieldData.comment d in
  let derived := FieldData.derived d in
  let convergent := FieldData.convergent_encryption d in
  let keyType := FieldData.type d in
  let exportable := FieldData.exportable d in
  let allowPlaintextBackup := FieldData.allow_plaintext_backup d in
  if negb derived && convergent then
    (w, Returns
          (Some (logical_ErrorResponse
                   "convergent encryption requires derivation to be enabled"))
          None)
  else
    match keyType_of_string keyType with
    | None =>
        (w, Returns
              (Some (logical_ErrorResponse ("unknown key type " ++ keyType)))
              (Some ErrInvalidRequest))
    | Some kt =>
        let polReq :=
          PolicyRequest.mk true name realName email comment kt
            derived convergent exportable allowPlaintextBackup in
        let '(w1, (p, upserted, err)) := lm_GetPolicy w polReq in
        match err with
        | Some e => (w1, Returns None (Some e))
        | None =>
            match p with
            | None =>
                (w1, Returns None
                       (Some (fmt_Errorf
                                "error generating key: returned policy was nil")))
            | Some p =>
                let w2 := if CachingDisabled w1 then Policy_Unlock p w1 else w1 in
                let resp := pathPolicyWrite_resp upserted name in
                (* return nil, nil *)
                (w2, Returns None None)
            end
        end
    end.

(** *** pathPolicyRead *)


(** [context], decoded: [nil] when the [context] field is empty. *)
Definition decode_context (contextRaw : string) : bytes + string :=
  if Nat.eqb (String.length contextRaw) 0 then inl []
  else base64_DecodeString contextRaw.

(** The body of the loop over [p.Keys] in the asymmetric case, for the
    binding [k], [v]. *)
Definition asym_turn (p : Policy.t) (context : bytes)
    (k : string) (v : KeyEntry.t) : turn asymKey.t :=
  let PublicKey := KeyEntry.FormattedPublicKey v in
  let CreationTime :=
    if Time_IsZero (KeyEntry.CreationTime v)
    then time_Unix (KeyEntry.DeprecatedCreationTime v)
    else KeyEntry.CreationTime v in
  match Policy.Type_ p with
  | KeyType_ECDSA_P256 => Next (asymKey.mk "P-256" PublicKey CreationTime)
  | KeyType_ECDSA_P384 => Next (asymKey.mk "P-384" PublicKey CreationTime)
  | KeyType_ECDSA_P521 => Next (asymKey.mk "P-521" PublicKey CreationTime)
  | KeyType_OpenPGP =>
      match extractOpenPGP (KeyEntry.Key v) openpgp_PublicKeyType with
      | (_, _, Some err) => Leave err
      | (pubkey, idkey, None) =>
          let Name := if String.eqb idkey "" then "openpgp" else idkey in
          Next (asymKey.mk Name pubkey CreationTime)
      end
  | KeyType_ED25519 =>
      if Policy.Derived p then
        if Nat.eqb (List.length context) 0 then
          Next (asymKey.mk "ed25519" "" CreationTime)
        else
          match strconv_Atoi k with
          | inr err =>
              Leave (errwrap_Wrapf
                       ("invalid version " ++ strconv_Quote k ++ ": {{err}}")
                       (LibraryError "strconv" err))
          | inl ver =>
              match Policy_DeriveKey p context ver 32 with
              | (_, Some _) =>
                  Leave (fmt_Errorf
                           "failed to derive key to return public component")
              | (derived, None) =>
                  let pubKey := ed25519_Public derived in
                  Next (asymKey.mk "ed25519"
                          (base64_EncodeToString pubKey) CreationTime)
              end
          end
      else Next (asymKey.mk "ed25519" PublicKey CreationTime)
  | KeyType_RSA2048 | KeyType_RSA4096 =>
      let Name :=
        match Policy.Type_ p with
        | KeyType_RSA4096 => "rsa-4096"
        | _ => "rsa-2048"
        end in
      match KeyEntry.RSAKey v with
      | None => Crash "invalid memory address or nil pointer dereference"
      | Some RSAKey =>
          match x509_MarshalPKIXPublicKey (rsa.Public RSAKey) with
          | inr err =>
              Leave (errwrap_Wrapf "error marshaling RSA public key: {{err}}"
                       (LibraryError "x509" err))
          | inl derBytes =>
              let pemBlock := pem.mkBlock "PUBLIC KEY" derBytes in
              match pem_EncodeToMemory pemBlock with
              | None | Some [] =>
                  Leave (fmt_Errorf "failed to PEM-encode RSA public key")
              | Some pemBytes =>
                  Next (asymKey.mk Name (string_of_bytes pemBytes) CreationTime)
              end
          end
      end
  | _ => Next (asymKey.mk "" PublicKey CreationTime)
  end.

(** The loop [for k, v := range p.Keys] of the asymmetric case, filling
    [retKeys] until a turn leaves the handler. *)
Fixpoint range_asym (p : Policy.t) (context : bytes)
    (keys : list (string * KeyEntry.t))
  : turn (list (string * list (string * value))) :=
  match keys with
  | [] => Next []
  | (k, v) :: rest =>
      match asym_turn p context k v with
      | Next key =>
          match range_asym p context rest with
          | Next retKeys => Next ((k, asymKey.Map key) :: retKeys)
          | Leave err => Leave err
          | Crash msg => Crash msg
          end
      | Leave err => Leave err
      | Crash msg => Crash msg
      end
  end.

(** The loop of the symmetric case. *)
Definition range_sym (keys : list (string * KeyEntry.t)) : list (string * Z) :=
  List.map (fun kv => (fst kv, KeyEntry.DeprecatedCreationTime (snd kv))) keys.

(** [resp.Data] as [pathPolicyRead] has it before it reads the [context]
    field. *)
Definition describe_header (p : Policy.t) : list (string * value) :=
  let Data :=
    [("name", VString (Policy.Name p));
     ("type", VString (KeyType_String (Policy.Type_ p)));
     ("derived", VBool (Policy.Derived p));
     ("deletion_allowed", VBool (Policy.DeletionAllowed p));
     ("min_available_version", VInt (Policy.MinAvailableVersion p));
     ("min_decryption_version", VInt (Policy.MinDecryptionVersion p));
     ("min_encryption_version", VInt (Policy.MinEncryptionVersion p));
     ("latest_version", VInt (Policy.LatestVersion p));
     ("exportable", VBool (Policy.Exportable p));
     ("allow_plaintext_backup", VBool (Policy.AllowPlaintextBackup p));
     ("supports_encryption", VBool (EncryptionSupported (Policy.Type_ p)));
     ("supports_decryption", VBool (DecryptionSupported (Policy.Type_ p)));
     ("supports_signing", VBool (SigningSupported (Policy.Type_ p)));
     ("supports_derivation", VBool (DerivationSupported (Policy.Type_ p)))] in
  let Data :=
    match Policy.BackupInfo p with
    | Some i =>
        Data_set Data "backup_info"
          (VMap [("time", VTime (BackupInfo.Time_ i));
                 ("version", VInt (BackupInfo.Version i))])
    | None => Data
    end in
  let Data :=
    match Policy.RestoreInfo p with
    | Some i =>
        Data_set Data "restore_info"
          (VMap [("time", VTime (BackupInfo.Time_ i));
                 ("version", VInt (BackupInfo.Version i))])
    | None => Data
    end in
  if Policy.Derived p then
    let Data :=
      match Policy.KDF_ p with
      | Kdf_hmac_sha256_counter =>
          Data_set (Data_set Data "kdf" (VString "hmac-sha256-counter"))
            "kdf_mode" (VString "hmac-sha256-counter")
      | Kdf_hkdf_sha256 => Data_set Data "kdf" (VString "hkdf_sha256")
      | Kdf_other _ => Data
      end in
    let Data :=
      Data_set Data "convergent_encryption"
        (VBool (Policy.ConvergentEncryption p)) in
    if Policy.ConvergentEncryption p
    then Data_set Data "convergent_encryption_version"
           (VInt (Policy.ConvergentVersion p))
    else Data
  else Data.

(** The block [if p.Type == keysutil.KeyType_OpenPGP] of the asymmetric
    case. *)
Definition describe_identity (p : Policy.t) (Data : list (string * value))
  : list (string * value) :=
  match Policy.Type_ p with
  | KeyType_OpenPGP =>
      Data_set
        (Data_set
           (Data_set Data "real_name" (VString (Policy.RealName p)))
           "email" (VString (Policy.Email p)))
        "comment" (VString (Policy.Comment p))
  | _ => Data
  end.

(** [pathPolicyRead] from the creation of [resp] to its end, for the policy
    [p] that the lock manager returned. *)
Definition describe (p : Policy.t) (contextRaw : string) : outcome :=
  let Data := describe_header p in
  match decode_context contextRaw with
  | inr _ =>
      Returns (Some (logical_ErrorResponse "failed to base64-decode context"))
        (Some ErrInvalidRequest)
  | inl context =>
      match Policy.Type_ p with
      | KeyType_AES128_GCM96 | KeyType_AES256_GCM96
      | KeyType_ChaCha20_Poly1305 =>
          let retKeys := range_sym (Policy.Keys p) in
          Returns
            (Some (Response.mk (Data_set Data "keys" (VInt64Map retKeys)) []))
            None
      | KeyType_ECDSA_P256 | KeyType_ECDSA_P384 | KeyType_ECDSA_P521
      | KeyType_ED25519 | KeyType_RSA2048 | KeyType_RSA4096
      | KeyType_OpenPGP =>
          let Data := describe_identity p Data in
          match range_asym p context (Policy.Keys p) with
          | Next retKeys =>
              Returns
                (Some (Response.mk (Data_set Data "keys" (VKeysMap retKeys)) []))
                None
          | Leave err => Returns None (Some err)
          | Crash msg => Panics msg
          end
      | KeyType_other _ => Returns (Some (Response.mk Data [])) None
      end
  end.

(** [b.pathPolicyRead(ctx, req, d)]. *)
Definition pathPolicyRead (w : World) (d : FieldData.t) : World * outcome :=
  let name := FieldData.name d in
  let polReq :=
    PolicyRequest.mk false name "" "" "" KeyType_zero false false false false in
  let '(w1, (p, _, err)) := lm_GetPolicy w polReq in
  match err with
  | Some e => (w1, Returns None (Some e))
  | None =>
      match p with
      | None => (w1, Returns None None)
      | Some p =>
          let w2 :=
            if negb (CachingDisabled w1) then Policy_Lock p false w1 else w1 in
          (* defer p.Unlock() *)
          (Policy_Unlock p w2, describe p (FieldData.context d))
      end
  end.

End Handlers.

(** ** What the claims speak of *)

(** The types of the second case of [switch p.Type] in [pathPolicyRead]: the
    asymmetric ones and OpenPGP. *)
Definition asymmetric_case (t : KeyType) : bool :=
  match t with
  | KeyType_ECDSA_P256 | KeyType_ECDSA_P384 | KeyType_ECDSA_P521
  | KeyType_ED25519 | KeyType_RSA2048 | KeyType_RSA4096
  | KeyType_OpenPGP => true
  | _ => false
  end.

(** The creation time a description is to report for a key version: the
    modern time stamp, or the legacy epoch when the modern one is zero. *)
Definition reported_creation_time (v : KeyEntry.t) : Time :=
  if Time_IsZero (KeyEntry.CreationTime v)
  then time_Unix (KeyEntry.DeprecatedCreationTime v)
  else KeyEntry.CreationTime v.


(** The policies whose description may depend on the context: Ed25519 with
    derivation. *)
Definition derived_ed25519 (p : Policy.t) : bool :=
  match Policy.Type_ p with
  | KeyType_ED25519 => Policy.Derived p
  | _ => false
  end.

(** ** pathPolicyDelete *)

(** [strings.Replace(format, "{{err}}", msg, -1)], as [errwrap.Wrapf] calls
    it: every occurrence of the seven characters, from left to right, gives
    way to [msg]; [skip] counts the characters of an occurrence still to be
    dropped. *)
Fixpoint replace_err (skip : nat) (format msg : string) : string :=
  match format with
  | EmptyString => EmptyString
  | String c rest =>
      match skip with
      | S n => replace_err n rest msg
      | O =>
          if String.prefix "{{err}}" format
          then (msg ++ replace_err 6 rest msg)%string
          else String c (replace_err 0 rest msg)
      end
  end.

(** [err.Error()]: the text of [logical.ErrInvalidRequest], the formatted
    message of [fmt.Errorf], the outer message of [errwrap.Wrapf] (its format
    with the text of the wrapped error in it), the message of a library. *)
Fixpoint error_Error (err : error) : string :=
  match err with
  | ErrInvalidRequest => "invalid request"
  | fmt_Errorf msg => msg
  | errwrap_Wrapf format inner => replace_err 0 format (error_Error inner)
  | LibraryError _ msg => msg
  end.

(** [b.lm.DeletePolicy(ctx, req.Storage, name)], which does its own locking
    and is not in this file. *)
Class Deleter {B : Backend} : Type := {
  lm_DeletePolicy : World -> string -> World * option error
}.

(** [b.pathPolicyDelete(ctx, req, d)]. *)
Definition pathPolicyDelete {B : Backend} {D : Deleter}
    (w : World) (d : FieldData.t) : World * outcome :=
  let name := FieldData.name d in
  let '(w1, err) := lm_DeletePolicy w name in
  match err with
  | Some e =>
      (w1, Returns
             (Some (logical_ErrorResponse
                      ("error deleting policy " ++ name ++ ": "
                       ++ error_Error e)))
             (Some e))
  | None => (w1, Returns None None)
  end.

(** ** What the further properties speak of *)

(** The names [pathPolicyWrite] accepts in the [type] field. *)
Definition key_type_names : list string :=
  ["aes128-gcm96"; "aes256-gcm96"; "chacha20-poly1305"; "ecdsa-p256";
   "ecdsa-p384"; "ecdsa-p521"; "ed25519"; "rsa-2048"; "rsa-4096"; "openpgp"].

(** The request [pathPolicyWrite] hands to the lock manager for a key
    type. *)
Definition write_request (d : FieldData.t) (kt : KeyType) : PolicyRequest.t :=
  PolicyRequest.mk true (FieldData.name d) (FieldData.real_name d)
    (FieldData.email d) (FieldData.comment d) kt (FieldData.derived d)
    (FieldData.convergent_encryption d) (FieldData.exportable d)
    (FieldData.allow_plaintext_backup d).

(** The request [pathPolicyRead] hands to the lock manager. *)
Definition read_request {B : Backend} (d : FieldData.t) : PolicyRequest.t :=
  PolicyRequest.mk false (FieldData.name d) "" "" "" KeyType_zero
    false false false false.

(** The symmetric types, the first case of [switch p.Type]. *)
Definition symmetric_case (t : KeyType) : bool :=
  match t with
  | KeyType_AES128_GCM96 | KeyType_AES256_GCM96
  | KeyType_ChaCha20_Poly1305 => true
  | _ => false
  end.

(** The name under which [pathPolicyWrite] selects a key type; the empty
    string for a type the switch does not select. *)
Definition key_type_name (t : KeyType) : string :=
  match t with
  | KeyType_AES128_GCM96 => "aes128-gcm96"
  | KeyType_AES256_GCM96 => "aes256-gcm96"
  | KeyType_ChaCha20_Poly1305 => "chacha20-poly1305"
  | KeyType_ECDSA_P256 => "ecdsa-p256"
  | KeyType_ECDSA_P384 => "ecdsa-p384"
  | KeyType_ECDSA_P521 => "ecdsa-p521"
  | KeyType_ED25519 => "ed25519"
  | KeyType_RSA2048 => "rsa-2048"
  | KeyType_RSA4096 => "rsa-4096"
  | KeyType_OpenPGP => "openpgp"
  | KeyType_other _ => ""
  end.

(** The [name] of the versions of an ECDSA or Ed25519 policy. *)
Definition curve_name (t : KeyType) : string :=
  match t with
  | KeyType_ECDSA_P256 => "P-256"
  | KeyType_ECDSA_P384 => "P-384"
  | KeyType_ECDSA_P521 => "P-521"
  | KeyType_ED25519 => "ed25519"
  | _ => ""
  end.

(** The version keys of a [keys] table. *)
Definition table_versions (table : value) : option (list string) :=
  match table with
  | VInt64Map m => Some (List.map fst m)
  | VKeysMap m => Some (List.map fst m)
  | _ => None
  end.

(** The fields [pathPolicyRead] adds to the response after the ones of
    [describe_header]. *)
Definition late_fields : list string :=
  ["keys"; "real_name"; "email"; "comment"].

(** ** The policy store behind the lock manager *)

Module PolicyStore.

(** Modelled from the spec: the state the Policy Store of section 4.1 owns,
    which sdk/helper/keysutil implements outside this file: the named
    policies, how many keys have been drawn from the random reader, and how
    many policy locks are held. *)
Record World := mk {
  policies : list (string * Policy.t);
  drawn : nat;
  held : nat
}.

(** Modelled from the spec: [get(name)], the policy stored under a name. *)
Fixpoint get (name : string) (ps : list (string * Policy.t)) : option Policy.t :=
  match ps with
  | [] => None
  | (n, p) :: rest => if String.eqb n name then Some p else get name rest
  end.

(** Modelled from the spec: random bytes drawn for a new policy, here [len]
    bytes fixed by the number of keys drawn so far. *)
Definition fresh_bytes (len n : nat) : bytes :=
  List.repeat (match Byte.of_N (N.of_nat (n mod 256)) with
               | Some b => b
               | None => x00
               end) len.

Definition fresh_key (n : nat) : bytes := fresh_bytes 32 n.

(** Modelled from the spec: the first key version of a new policy, with
    material after the algorithm type (section 4.1): a raw key for the
    symmetric types, a key pair for the RSA types, a key and the text of its
    public half for the curves, the bytes of a ring for OpenPGP. *)
Definition fresh_entry (t : KeyType) (n : nat) : KeyEntry.t :=
  match t with
  | KeyType_AES128_GCM96 =>
      KeyEntry.mk (fresh_bytes 16 n) 0 (mkTime 0 0) "" None
  | KeyType_RSA2048 | KeyType_RSA4096 =>
      KeyEntry.mk [] 0 (mkTime 0 0) ""
        (Some (rsa.mkPrivateKey
                 (rsa.mkPublicKey (Z.of_nat (2 * n + 3233)) 65537)
                 (Z.of_nat (2 * n + 2753))))
  | KeyType_ECDSA_P256 | KeyType_ECDSA_P384 | KeyType_ECDSA_P521
  | KeyType_ED25519 =>
      KeyEntry.mk (fresh_key n) 0 (mkTime 0 0)
        (base64_EncodeToString (fresh_key (S n))) None
  | _ => KeyEntry.mk (fresh_key n) 0 (mkTime 0 0) "" None
  end.

(** Modelled from the spec: the policy a creation request gives, with its
    first key version. *)
Definition create (req : PolicyRequest.t) (n : nat) : Policy.t :=
  Policy.mk (PolicyRequest.Name req) (PolicyRequest.KeyType_ req)
    (PolicyRequest.Derived req) false 1 1 1 1
    (PolicyRequest.Exportable req) (PolicyRequest.AllowPlaintextBackup req)
    None None Kdf_hkdf_sha256 (PolicyRequest.Convergent req) 0
    (PolicyRequest.RealName req) (PolicyRequest.Email req)
    (PolicyRequest.Comment req)
    [("1", fresh_entry (PolicyRequest.KeyType_ req) n)].

(** Modelled from the spec: [get_or_create(name, creation_params)] of section
    4.1.  With [upsert] and no policy under the name, key material is
    synthesized and the new policy persisted, after the check that a
    convergent policy is derived; an existing policy is returned unchanged
    with [created=false]; without [upsert] nothing is ever created. *)
Definition GetPolicy (w : World) (req : PolicyRequest.t)
  : World * (option Policy.t * bool * option error) :=
  match get (PolicyRequest.Name req) (policies w) with
  | Some p => (w, (Some p, false, None))
  | None =>
      if PolicyRequest.Upsert req then
        if PolicyRequest.Convergent req && negb (PolicyRequest.Derived req)
        then (w, (None, false, Some ErrInvalidRequest))
        else
          let p := create req (drawn w) in
          (mk ((PolicyRequest.Name req, p) :: policies w) (S (drawn w)) (held w),
           (Some p, true, None))
      else (w, (None, false, None))
  end.

End PolicyStore.

(** ** Libraries to run the handlers on concrete requests *)

Module Demo.

(** The value of a decimal digit. *)
Definition digit (c : ascii) : option Z :=
  let n := nat_of_ascii c in
  if Nat.leb 48 n && Nat.leb n 57 then Some (Z.of_nat (n - 48)) else None.

Fixpoint digits (acc : Z) (s : string) : option Z :=
  match s with
  | EmptyString => Some acc
  | String c rest =>
      match digit c with
      | Some v => digits (acc * 10 + v) rest
      | None => None
      end
  end.

(** [strconv.Atoi] on a 64-bit platform: an optional sign and decimal
    digits, within the range of [int]. *)
Definition Atoi (s : string) : Z + string :=
  let unsigned (neg : bool) (t : string) :=
    match t with
    | EmptyString => inr "invalid syntax"
    | _ =>
        match digits 0 t with
        | None => inr "invalid syntax"
        | Some n =>
            let v := if neg then (- n)%Z else n in
            if ((- 2 ^ 63 <=? v) && (v <? 2 ^ 63))%Z
            then inl v else inr "value out of range"
        end
    end in
  match s with
  | String "-"%char rest => unsigned true rest
  | String "+"%char rest => unsigned false rest
  | _ => unsigned false s
  end.

(** The 6-bit value of a character of the standard alphabet. *)
Definition b64_value (c : ascii) : option N :=
  let n := N.of_nat (nat_of_ascii c) in
  if ((65 <=? n) && (n <=? 90))%N then Some (n - 65)%N
  else if ((97 <=? n) && (n <=? 122))%N then Some (n - 71)%N
  else if ((48 <=? n) && (n <=? 57))%N then Some (n + 4)%N
  else if (n =? 43)%N then Some 62%N
  else if (n =? 47)%N then Some 63%N
  else None.

Definition byte_of (n : N) : byte :=
  match Byte.of_N (n mod 256) with
  | Some b => b
  | None => x00
  end.

(** [base64.StdEncoding.DecodeString] on text without line breaks: groups of
    four characters, the last one padded with [=]. *)
Fixpoint DecodeString (s : string) : bytes + string :=
  match s with
  | EmptyString => inl []
  | String c1 (String c2 (String c3 (String c4 rest))) =>
      match b64_value c1, b64_value c2 with
      | Some v1, Some v2 =>
          let b1 := byte_of (v1 * 4 + v2 / 16) in
          match b64_value c3, b64_value c4, rest with
          | Some v3, Some v4, _ =>
              match DecodeString rest with
              | inl tl =>
                  inl (b1 :: byte_of (v2 * 16 + v3 / 4)
                          :: byte_of (v3 * 64 + v4) :: tl)
              | inr e => inr e
              end
          | Some v3, None, EmptyString =>
              if Ascii.eqb c4 "="
              then inl [b1; byte_of (v2 * 16 + v3 / 4)]
              else inr "illegal base64 data"
          | None, None, EmptyString =>
              if Ascii.eqb c3 "=" && Ascii.eqb c4 "="
              then inl [b1]
              else inr "illegal base64 data"
          | _, _, _ => inr "illegal base64 data"
          end
      | _, _ => inr "illegal base64 data"
      end
  | _ => inr "illegal base64 data"
  end%N.

(** [PrivateKey.Public] of x/crypto/ed25519: a new slice of 32 bytes that
    receives the bytes of the private key from offset 32 on. *)
Definition Public (priv : bytes) : bytes :=
  List.firstn 32 (List.skipn 32 priv ++ List.repeat x00 32).

Definition PublicKeySize (priv : bytes) : List.length (Public priv) = 32%nat.
Proof.
  unfold Public. rewrite List.length_firstn, List.length_app, List.repeat_length.
  lia.
Defined.

(** The entry of a version number in [p.Keys]. *)
Fixpoint version_entry (ver : Z) (keys : list (string * KeyEntry.t))
  : option KeyEntry.t :=
  match keys with
  | [] => None
  | (k, v) :: rest =>
      match Atoi k with
      | inl n => if (n =? ver)%Z then Some v else version_entry ver rest
      | inr _ => version_entry ver rest
      end
  end.

(** Modelled from the spec: the Derivation Engine of section 4.4, which
    sdk/helper/keysutil implements outside this file: a function of the
    material of the version at hand and of the caller's context, failing
    without a context or without the version.  The real engine hashes; this
    one lays 32 bytes of the version's material before 32 bytes of the
    context, which is enough to run the handler. *)
Definition DeriveKey (p : Policy.t) (context : bytes) (ver numBytes : Z)
  : bytes * option error :=
  match context, version_entry ver (Policy.Keys p) with
  | [], _ => ([], Some (fmt_Errorf "missing 'context' for key derivation"))
  | _, None => ([], Some (fmt_Errorf "version not found"))
  | _, Some v =>
      (List.firstn 32 (KeyEntry.Key v ++ List.repeat x00 32)
         ++ List.firstn 32 (context ++ List.repeat x00 32), None)
  end.

(** Modelled from the spec: the names of the algorithm variants of section 3,
    as [KeyType.String] of keysutil prints them. *)
Definition String_ (t : KeyType) : string :=
  match t with
  | KeyType_AES128_GCM96 => "aes128-gcm96"
  | KeyType_AES256_GCM96 => "aes256-gcm96"
  | KeyType_ChaCha20_Poly1305 => "chacha20-poly1305"
  | KeyType_ECDSA_P256 => "ecdsa-p256"
  | KeyType_ECDSA_P384 => "ecdsa-p384"
  | KeyType_ECDSA_P521 => "ecdsa-p521"
  | KeyType_ED25519 => "ed25519"
  | KeyType_RSA2048 => "rsa-2048"
  | KeyType_RSA4096 => "rsa-4096"
  | KeyType_OpenPGP => "openpgp"
  | KeyType_other _ => "[unknown]"
  end.

Definition symmetric (t : KeyType) : bool :=
  match t with
  | KeyType_AES128_GCM96 | KeyType_AES256_GCM96
  | KeyType_ChaCha20_Poly1305 => true
  | _ => false
  end.

(** A stand-in for [x509.MarshalPKIXPublicKey]: the exponent, then the
    modulus, a byte each; a key without modulus is refused. *)
Definition MarshalPKIXPublicKey (k : rsa.PublicKey) : bytes + string :=
  if (rsa.N k =? 0)%Z then inr "x509: unsupported public key"
  else inl [byte_of (Z.to_N (rsa.E k)); byte_of (Z.to_N (rsa.N k))].

(** The backend over the policy store, with caching enabled. *)
Definition backend : Backend := {|
  World := PolicyStore.World;
  lm_GetPolicy := PolicyStore.GetPolicy;
  CachingDisabled := fun _ => false;
  Policy_Lock := fun _ _ w =>
    PolicyStore.mk (PolicyStore.policies w) (PolicyStore.drawn w)
      (S (PolicyStore.held w));
  Policy_Unlock := fun _ w =>
    PolicyStore.mk (PolicyStore.policies w) (PolicyStore.drawn w)
      (Nat.pred (PolicyStore.held w));
  Policy_DeriveKey := DeriveKey;
  KeyType_zero := KeyType_AES256_GCM96;
  KeyType_String := String_;
  EncryptionSupported := fun t =>
    symmetric t || match t with
                   | KeyType_RSA2048 | KeyType_RSA4096 | KeyType_OpenPGP => true
                   | _ => false
                   end;
  DecryptionSupported := fun t =>
    symmetric t || match t with
                   | KeyType_RSA2048 | KeyType_RSA4096 | KeyType_OpenPGP => true
                   | _ => false
                   end;
  SigningSupported := fun t => negb (symmetric t);
  DerivationSupported := fun t =>
    symmetric t || match t with KeyType_ED25519 => true | _ => false end;
  strconv_Atoi := Atoi;
  strconv_Quote := fun s =>
    (String (ascii_of_nat 34) s ++ String (ascii_of_nat 34) "")%string;
  base64_DecodeString := DecodeString;
  x509_MarshalPKIXPublicKey := MarshalPKIXPublicKey;
  pem_EncodeToMemory := go_pem_EncodeToMemory;
  ed25519_Public := Public;
  ed25519_PublicKeySize := PublicKeySize
|}.

(** A stand-in for x/crypto/openpgp: a ring is its bytes, one entity named
    after them, no entity in an empty ring; the armor is a header line, the
    base64 text and a footer line.  [close_fails] makes [Close] fail. *)
Definition openpgp (close_fails : bool) : OpenPGPLib := {|
  ArmorWriter := string;
  openpgp_ReadKeyRing := fun key =>
    match key with
    | [] => inl []
    | _ => inl [mkEntity [string_of_bytes key] key]
    end;
  armor_Encode := fun blockType =>
    inl ("-----BEGIN " ++ blockType ++ "-----" ++ newline)%string;
  Entity_Serialize := fun e w =>
    ((w ++ base64_EncodeToString (Packets e))%string, None);
  ArmorWriter_Write := fun w b => ((w ++ base64_EncodeToString b)%string, None);
  ArmorWriter_Close := fun w =>
    if close_fails then (w, Some "short write")
    else ((w ++ newline ++ "-----END-----")%string, None);
  Buffer_String := fun w => w
|}.

(** Sample policies. *)
Definition entry (key : bytes) (created : Time) (legacy : Z)
    (rsaKey : option rsa.PrivateKey) : KeyEntry.t :=
  KeyEntry.mk key legacy created "" rsaKey.

Definition policy (name : string) (t : KeyType) (derived : bool)
    (keys : list (string * KeyEntry.t)) : Policy.t :=
  Policy.mk name t derived false 1 1 1 (Z.of_nat (List.length keys))
    false false None None Kdf_hkdf_sha256 false 0 "" "" "" keys.

Definition seed : bytes := List.repeat x07 32.

Definition ed_policy : Policy.t :=
  policy "ed" KeyType_ED25519 true
    [("1", entry seed (mkTime 0 0) 1500000000 None);
     ("2", entry seed (mkTime 63700000000 5) 0 None)].

Definition ed_bad_policy : Policy.t :=
  policy "edbad" KeyType_ED25519 true
    [("abc", entry seed (mkTime 0 0) 1500000000 None)].

Definition rsa_policy : Policy.t :=
  policy "k1" KeyType_RSA2048 false
    [("1", entry [] (mkTime 0 0) 1500000000
             (Some (rsa.mkPrivateKey (rsa.mkPublicKey 3233 17) 2753)))].

Definition rsa_broken_policy : Policy.t :=
  policy "k2" KeyType_RSA4096 false
    [("1", entry [] (mkTime 0 0) 1500000000
             (Some (rsa.mkPrivateKey (rsa.mkPublicKey 0 17) 0)))].

Definition aes_policy : Policy.t :=
  policy "aes" KeyType_AES256_GCM96 false
    [("1", entry seed (mkTime 0 0) 1500000000 None)].

Definition world : PolicyStore.World :=
  PolicyStore.mk
    [("ed", ed_policy); ("edbad", ed_bad_policy); ("k1", rsa_policy);
     ("k2", rsa_broken_policy); ("aes", aes_policy)] 5 0.

Definition request (name type context : string) (derived convergent : bool)
  : FieldData.t :=
  FieldData.mk name "" "" "" type derived convergent false false context.

(** More sample policies: a curve, OpenPGP rings, an Ed25519 policy without
    derivation. *)
Definition ec_policy : Policy.t :=
  policy "ec" KeyType_ECDSA_P384 false
    [("1", KeyEntry.mk seed 1500000000 (mkTime 0 0) "PEM of version 1" None);
     ("2", KeyEntry.mk seed 0 (mkTime 63700000000 5) "PEM of version 2" None)].

Definition ed_plain_policy : Policy.t :=
  policy "edplain" KeyType_ED25519 false
    [("1", KeyEntry.mk seed 1500000000 (mkTime 0 0) "cached key" None)].

Definition pgp_policy : Policy.t :=
  Policy.mk "pgp" KeyType_OpenPGP false false 1 1 1 1 false false None None
    Kdf_hkdf_sha256 false 0 "Alice" "alice@example.org" "test key"
    [("1", entry [x41; x42] (mkTime 0 0) 1500000000 None)].

Definition pgp_empty_policy : Policy.t :=
  Policy.mk "pgp0" KeyType_OpenPGP false false 1 1 1 1 false false None None
    Kdf_hkdf_sha256 false 0 "" "" ""
    [("1", entry [] (mkTime 0 0) 1500000000 None)].

Definition rsa_nil_policy : Policy.t :=
  policy "k3" KeyType_RSA2048 false
    [("1", entry [] (mkTime 0 0) 1500000000 None)].

Definition backed_up_policy : Policy.t :=
  Policy.mk "bk" KeyType_AES256_GCM96 true false 1 1 1 1 true true
    (Some (BackupInfo.mk (mkTime 63700000000 0) 1)) None
    Kdf_hmac_sha256_counter true 2 "" "" ""
    [("1", entry seed (mkTime 63700000000 5) 1500000000 None)].






(** The same backend over a derivation engine that always fails. *)
Definition backend_without_engine : Backend := {|
  World := @World backend;
  lm_GetPolicy := @lm_GetPolicy backend;
  CachingDisabled := @CachingDisabled backend;
  Policy_Lock := @Policy_Lock backend;
  Policy_Unlock := @Policy_Unlock backend;
  Policy_DeriveKey := fun _ _ _ _ =>
    ([], Some (fmt_Errorf "requested version for derivation is not available"));
  KeyType_zero := @KeyType_zero backend;
  KeyType_String := @KeyType_String backend;
  EncryptionSupported := @EncryptionSupported backend;
  DecryptionSupported := @DecryptionSupported backend;
  SigningSupported := @SigningSupported backend;
  DerivationSupported := @DerivationSupported backend;
  strconv_Atoi := @strconv_Atoi backend;
  strconv_Quote := @strconv_Quote backend;
  base64_DecodeString := @base64_DecodeString backend;
  x509_MarshalPKIXPublicKey := @x509_MarshalPKIXPublicKey backend;
  pem_EncodeToMemory := @pem_EncodeToMemory backend;
  ed25519_Public := @ed25519_Public backend;
  ed25519_PublicKeySize := @ed25519_PublicKeySize backend
|}.

End Demo.

(** * Properties *)

(** ** base64: the encoding is never empty on bytes, and injective *)


Section Sextets.
Local Open Scope N_scope.










End Sextets.












(** ** extractOpenPGP *)

Section ExtractOpenPGPProperties.
Context {PGP : OpenPGPLib}.

(** Whatever the block type, a ring that the library cannot read, or that
    holds no entity, gives an error and no text. *)
Lemma extractOpenPGP_unreadable (key : bytes) (blockType e : string) :
  openpgp_ReadKeyRing key = inr e ->
  extractOpenPGP key blockType = ("", "", Some (LibraryError "openpgp" e)).
Proof. intros H. unfold extractOpenPGP. rewrite H. reflexivity. Qed.

Lemma extractOpenPGP_no_entity (key : bytes) (blockType : string) :
  openpgp_ReadKeyRing key = inl [] ->
  extractOpenPGP key blockType =
    ("", "", Some (fmt_Errorf "No entities found in OpenPGP key ring")).
Proof. intros H. unfold extractOpenPGP. rewrite H. reflexivity. Qed.

(** The default case of the switch on the block type. *)
Lemma extractOpenPGP_other_blockType
    (key : bytes) (blockType : string) (entity : Entity) (rest : list Entity) :
  openpgp_ReadKeyRing key = inl (entity :: rest) ->
  blockType <> openpgp_PublicKeyType ->
  blockType <> openpgp_PrivateKeyType ->
  extractOpenPGP key blockType =
    ("", "", Some (fmt_Errorf ("Incorrect blockType " ++ blockType))).
Proof.
  intros H Hpub Hpriv. unfold extractOpenPGP. rewrite H.
  apply String.eqb_neq in Hpub, Hpriv. rewrite Hpub, Hpriv. reflexivity.
Qed.

(** The private case drops the error of [Close]: the caller gets no text and
    no error. *)
Lemma extractOpenPGP_private_close_failure
    (key : bytes) (entity : Entity) (rest : list Entity)
    (pgpArmored w1 w2 : ArmorWriter) (werr : option string) (cerr : string) :
  openpgp_ReadKeyRing key = inl (entity :: rest) ->
  armor_Encode openpgp_PrivateKeyType = inl pgpArmored ->
  ArmorWriter_Write pgpArmored key = (w1, werr) ->
  ArmorWriter_Close w1 = (w2, Some cerr) ->
  extractOpenPGP key openpgp_PrivateKeyType = ("", "", None).
Proof.
  intros H He Hw Hc. unfold extractOpenPGP. rewrite H.
  change (String.eqb openpgp_PrivateKeyType openpgp_PublicKeyType) with false.
  change (String.eqb openpgp_PrivateKeyType openpgp_PrivateKeyType) with true.
  cbv iota. rewrite He, Hw, Hc. reflexivity.
Qed.

(** The private case drops the error of [Write] too: the text of the buffer
    is returned as if the key had been written. *)
Lemma extractOpenPGP_private_write_failure
    (key : bytes) (entity : Entity) (rest : list Entity)
    (pgpArmored w1 w2 : ArmorWriter) (werr : string) :
  openpgp_ReadKeyRing key = inl (entity :: rest) ->
  armor_Encode openpgp_PrivateKeyType = inl pgpArmored ->
  ArmorWriter_Write pgpArmored key = (w1, Some werr) ->
  ArmorWriter_Close w1 = (w2, None) ->
  extractOpenPGP key openpgp_PrivateKeyType =
    (Buffer_String w2, first_identity entity, None).
Proof.
  intros H He Hw Hc. unfold extractOpenPGP. rewrite H.
  change (String.eqb openpgp_PrivateKeyType openpgp_PublicKeyType) with false.
  change (String.eqb openpgp_PrivateKeyType openpgp_PrivateKeyType) with true.
  cbv iota. rewrite He, Hw, Hc. reflexivity.
Qed.

(** The public case reports both failures. *)
Lemma extractOpenPGP_public_close_failure
    (key : bytes) (entity : Entity) (rest : list Entity)
    (pgpArmored w1 w2 : ArmorWriter) (cerr : string) :
  openpgp_ReadKeyRing key = inl (entity :: rest) ->
  armor_Encode openpgp_PublicKeyType = inl pgpArmored ->
  Entity_Serialize entity pgpArmored = (w1, None) ->
  ArmorWriter_Close w1 = (w2, Some cerr) ->
  extractOpenPGP key openpgp_PublicKeyType =
    ("", "", Some (fmt_Errorf "Issue Serializing OpenPGP Armored information")).
Proof.
  intros H He Hs Hc. unfold extractOpenPGP. rewrite H.
  change (String.eqb openpgp_PublicKeyType openpgp_PublicKeyType) with true.
  cbv iota. rewrite He, Hs, Hc. reflexivity.
Qed.

(** C8, as the code has it: [extractOpenPGP] fails with the error [No
    entities found in OpenPGP key ring] when the ring read from the raw bytes
    holds no entity, and, when the ring holds an entity, with the error
    [Incorrect blockType ...] for every block type other than
    [openpgp.PublicKeyType] and [openpgp.PrivateKeyType].  Both are plain
    errors of [fmt.Errorf]: for a wrong block type the error returned is never
    [logical.ErrInvalidRequest] and never wraps it.  In these cases, and also
    when the ring cannot be read at all, the armored text and the identity
    returned are empty. *)
Theorem C8_extractOpenPGP_plain_refusals (key : bytes) (blockType : string) :
  (openpgp_ReadKeyRing key = inl [] ->
   extractOpenPGP key blockType =
     ("", "", Some (fmt_Errorf "No entities found in OpenPGP key ring")))
  /\ (blockType <> openpgp_PublicKeyType ->
      blockType <> openpgp_PrivateKeyType ->
      exists err,
        extractOpenPGP key blockType = ("", "", Some err)
        /\ wraps_ErrInvalidRequest err = false
        /\ (forall entity rest,
              openpgp_ReadKeyRing key = inl (entity :: rest) ->
              err = fmt_Errorf ("Incorrect blockType " ++ blockType))).
Proof.
  split.
  - apply extractOpenPGP_no_entity.
  - intros Hpub Hpriv.
    destruct (openpgp_ReadKeyRing key) as [[|entity rest]|e] eqn:H.
    + exists (fmt_Errorf "No entities found in OpenPGP key ring").
      split; [ apply extractOpenPGP_no_entity; exact H | ].
      split; [ reflexivity | discriminate ].
    + exists (fmt_Errorf ("Incorrect blockType " ++ blockType)).
      split; [ apply (extractOpenPGP_other_blockType key blockType entity rest);
               assumption | ].
      split; reflexivity.
    + exists (LibraryError "openpgp" e).
      split; [ apply extractOpenPGP_unreadable; exact H | ].
      split; [ reflexivity | discriminate ].
Qed.

End ExtractOpenPGPProperties.

(** C8 as the code has it, on an empty ring and on a ring of one entity, for
    the block type [FOO]. *)
Lemma C8_extractOpenPGP_plain_refusals_witness :
  @extractOpenPGP (Demo.openpgp false) [] "FOO" =
    ("", "", Some (fmt_Errorf "No entities found in OpenPGP key ring"))
  /\ exists err,
       @extractOpenPGP (Demo.openpgp false) [x41; x42] "FOO" =
         ("", "", Some err)
       /\ wraps_ErrInvalidRequest err = false
       /\ err = fmt_Errorf "Incorrect blockType FOO".
Proof.
  split.
  - apply (@C8_extractOpenPGP_plain_refusals (Demo.openpgp false) [] "FOO").
    reflexivity.
  - destruct (@C8_extractOpenPGP_plain_refusals (Demo.openpgp false)
                [x41; x42] "FOO") as [_ H].
    destruct H as [err [E1 [E2 E3]]]; [ discriminate | discriminate | ].
    exists err. split; [ exact E1 | ]. split; [ exact E2 | ].
    apply (E3 _ _ eq_refl).
Defined.

(** C8 fails as stated: asked for the block type [FOO], an empty ring gives
    the error of the ring, and a ring with an entity gives the error
    [Incorrect blockType FOO]; both are errors of [fmt.Errorf], which neither
    are nor wrap [logical.ErrInvalidRequest]. *)
Lemma C8_counterexample :
  @extractOpenPGP (Demo.openpgp false) [] "FOO" =
    ("", "", Some (fmt_Errorf "No entities found in OpenPGP key ring"))
  /\ wraps_ErrInvalidRequest
       (fmt_Errorf "No entities found in OpenPGP key ring") = false
  /\ @extractOpenPGP (Demo.openpgp false) [x41; x42] "FOO" =
       ("", "", Some (fmt_Errorf "Incorrect blockType FOO"))
  /\ wraps_ErrInvalidRequest (fmt_Errorf "Incorrect blockType FOO") = false.
Proof. repeat split. Qed.

(** ** pathPolicyWrite *)

Section WriteProperties.
Context {B : Backend}.

(** The handler returns a response only to report an error: a response that
    it returns never carries a warning. *)
Lemma pathPolicyWrite_response_is_error
    (w : World) (d : FieldData.t) (resp : Response.t) (err : option error) :
  snd (pathPolicyWrite w d) = Returns (Some resp) err ->
  IsError (Some resp) = true /\ Response.Warnings resp = [].
Proof.
  unfold pathPolicyWrite.
  destruct (negb (FieldData.derived d) && FieldData.convergent_encryption d).
  - cbn. intros H. injection H as <- _. split; reflexivity.
  - destruct (keyType_of_string (FieldData.type d)) as [kt|].
    + destruct (lm_GetPolicy w _) as [w1 [[p upserted] e]].
      destruct e as [e|]; [ cbn; discriminate | ].
      destruct p as [p|]; cbn; discriminate.
    + cbn. intros H. injection H as <- _. split; reflexivity.
Qed.

(** When the lock manager returns a policy and no error, whether it created
    the policy or found it, the handler returns [nil, nil]. *)
Lemma pathPolicyWrite_fetched
    (w w1 : World) (d : FieldData.t) (kt : KeyType) (p : Policy.t)
    (upserted : bool) :
  negb (FieldData.derived d) && FieldData.convergent_encryption d = false ->
  keyType_of_string (FieldData.type d) = Some kt ->
  lm_GetPolicy w
    (PolicyRequest.mk true (FieldData.name d) (FieldData.real_name d)
       (FieldData.email d) (FieldData.comment d) kt (FieldData.derived d)
       (FieldData.convergent_encryption d) (FieldData.exportable d)
       (FieldData.allow_plaintext_backup d))
    = (w1, (Some p, upserted, None)) ->
  snd (pathPolicyWrite w d) = Returns None None.
Proof.
  intros Hc Ht Hg. unfold pathPolicyWrite. rewrite Hc, Ht, Hg. reflexivity.
Qed.

(** C2: for every value of the [type] field, a request with
    [convergent_encryption] set and [derived] unset is answered by the error
    response [convergent encryption requires derivation to be enabled], which
    tells the caller that the request was invalid; the world is left as it
    was, whatever the lock manager would have done with the request: no
    policy is fetched or created and no key is generated. *)
Theorem C2_convergent_requires_derived (w : World) (d : FieldData.t) :
  FieldData.convergent_encryption d = true ->
  FieldData.derived d = false ->
  pathPolicyWrite w d =
    (w, Returns
          (Some (logical_ErrorResponse
                   "convergent encryption requires derivation to be enabled"))
          None)
  /\ invalid_request (snd (pathPolicyWrite w d)) = true.
Proof.
  intros Hc Hd. unfold pathPolicyWrite. rewrite Hc, Hd. split; reflexivity.
Qed.

End WriteProperties.

(** C2, on the policy store, for a type the handler does not know and for a
    known one: the store is the one before the request. *)
Lemma C2_convergent_requires_derived_witness :
  @pathPolicyWrite Demo.backend Demo.world
     (Demo.request "fresh" "no-such-type" "" false true) =
    (Demo.world,
     Returns
       (Some (logical_ErrorResponse
                "convergent encryption requires derivation to be enabled"))
       None)
  /\ @pathPolicyWrite Demo.backend Demo.world
       (Demo.request "fresh" "aes256-gcm96" "" false true) =
      (Demo.world,
       Returns
         (Some (logical_ErrorResponse
                  "convergent encryption requires derivation to be enabled"))
         None).
Proof.
  split.
  - apply (@C2_convergent_requires_derived Demo.backend Demo.world
             (Demo.request "fresh" "no-such-type" "" false true));
      reflexivity.
  - apply (@C2_convergent_requires_derived Demo.backend Demo.world
             (Demo.request "fresh" "aes256-gcm96" "" false true));
      reflexivity.
Defined.

(** C1: the request names the policy [k1], which the store holds.  The store
    is left as it was, so no key material is generated; the local response of
    the handler holds the warning [key k1 already existed]; the handler
    returns a nil response and a nil error, and the warning is lost. *)
Theorem C1_warning_is_dropped :
  PolicyStore.get "k1" (PolicyStore.policies Demo.world) = Some Demo.rsa_policy
  /\ Response.Warnings (pathPolicyWrite_resp false "k1")
     = ["key k1 already existed"]
  /\ @pathPolicyWrite Demo.backend Demo.world
       (Demo.request "k1" "rsa-2048" "" false false)
     = (Demo.world, Returns None None).
Proof. repeat split. Qed.

(** ** pathPolicyRead *)

Lemma Data_get_set_same (m : list (string * value)) (k : string) (v : value) :
  Data_get (Data_set m k v) k = Some v.
Proof.
  induction m as [|[k' v'] rest IH]; cbn [Data_set Data_get].
  - rewrite String.eqb_refl. reflexivity.
  - destruct (String.eqb k' k) eqn:E; cbn [Data_get].
    + rewrite String.eqb_refl. reflexivity.
    + rewrite E. exact IH.
Qed.

Ltac break_match_in H :=
  repeat match type of H with
  | context [match ?x with _ => _ end] => destruct x eqn:?
  end.

Section ReadProperties.
Context {B : Backend} {PGP : OpenPGPLib}.

(** Once the lock manager has returned a policy, the outcome of the handler
    is the one of [describe]. *)
Lemma pathPolicyRead_describe
    (w w1 : World) (d : FieldData.t) (p : Policy.t) (upserted : bool) :
  lm_GetPolicy w
    (PolicyRequest.mk false (FieldData.name d) "" "" "" KeyType_zero
       false false false false) = (w1, (Some p, upserted, None)) ->
  snd (pathPolicyRead w d) = describe p (FieldData.context d).
Proof. intros H. unfold pathPolicyRead. rewrite H. reflexivity. Qed.

(** A name the lock manager does not know is answered by [nil, nil], before
    the [context] field is read. *)
Lemma pathPolicyRead_unknown_name
    (w w1 : World) (d : FieldData.t) (upserted : bool) :
  lm_GetPolicy w
    (PolicyRequest.mk false (FieldData.name d) "" "" "" KeyType_zero
       false false false false) = (w1, (None, upserted, None)) ->
  pathPolicyRead w d = (w1, Returns None None).
Proof. intros H. unfold pathPolicyRead. rewrite H. reflexivity. Qed.

Lemma describe_malformed_context (p : Policy.t) (contextRaw e : string) :
  decode_context contextRaw = inr e ->
  describe p contextRaw =
    Returns (Some (logical_ErrorResponse "failed to base64-decode context"))
      (Some ErrInvalidRequest).
Proof. intros H. unfold describe. rewrite H. reflexivity. Qed.

(** The asymmetric case of [describe], once the context is decoded. *)
Lemma describe_asymmetric (p : Policy.t) (contextRaw : string) (context : bytes) :
  decode_context contextRaw = inl context ->
  asymmetric_case (Policy.Type_ p) = true ->
  describe p contextRaw =
    match range_asym p context (Policy.Keys p) with
    | Next retKeys =>
        Returns
          (Some (Response.mk
                   (Data_set (describe_identity p (describe_header p))
                      "keys" (VKeysMap retKeys)) []))
          None
    | Leave err => Returns None (Some err)
    | Crash msg => Panics msg
    end.
Proof.
  intros H Ht. unfold describe. rewrite H.
  destruct (Policy.Type_ p); try discriminate Ht; reflexivity.
Qed.

(** *** The loop over the key versions *)

Lemma range_asym_Next (p : Policy.t) (context : bytes)
    (keys : list (string * KeyEntry.t))
    (retKeys : list (string * list (string * value))) :
  range_asym p context keys = Next retKeys ->
  Forall2
    (fun kv entry =>
       exists key,
         asym_turn p context (fst kv) (snd kv) = Next key
         /\ entry = (fst kv, asymKey.Map key))
    keys retKeys.
Proof.
  revert retKeys. induction keys as [|[k v] rest IH]; intros retKeys H;
    cbn [range_asym] in H.
  - injection H as <-. constructor.
  - destruct (asym_turn p context k v) as [key| |] eqn:E; try discriminate H.
    destruct (range_asym p context rest) as [tl| |]; try discriminate H.
    injection H as <-. constructor.
    + exists key. split; [ exact E | reflexivity ].
    + apply IH. reflexivity.
Qed.

Lemma range_asym_all_Next (p : Policy.t) (context : bytes)
    (f : string -> KeyEntry.t -> asymKey.t)
    (keys : list (string * KeyEntry.t)) :
  (forall k v, In (k, v) keys -> asym_turn p context k v = Next (f k v)) ->
  range_asym p context keys =
    Next (List.map
            (fun kv => (fst kv, asymKey.Map (f (fst kv) (snd kv)))) keys).
Proof.
  induction keys as [|[k v] rest IH]; intros H; cbn [range_asym List.map].
  - reflexivity.
  - rewrite (H k v (or_introl eq_refl)).
    rewrite IH by (intros k' v' Hin; apply H; right; exact Hin).
    reflexivity.
Qed.

(** A turn that leaves the handler makes the loop leave it, with the error of
    a turn of the loop, provided no turn crashes. *)
Lemma range_asym_Leave (p : Policy.t) (context : bytes)
    (keys : list (string * KeyEntry.t)) :
  (forall k v msg, In (k, v) keys -> asym_turn p context k v <> Crash msg) ->
  (exists k v err, In (k, v) keys /\ asym_turn p context k v = Leave err) ->
  exists k v err,
    In (k, v) keys /\ asym_turn p context k v = Leave err
    /\ range_asym p context keys = Leave err.
Proof.
  induction keys as [|[k v] rest IH]; intros Hc [k0 [v0 [e0 [Hin He]]]].
  - destruct Hin.
  - cbn [range_asym].
    destruct (asym_turn p context k v) as [key|err|msg] eqn:E.
    + destruct Hin as [Heq|Hin].
      * injection Heq as -> ->. rewrite E in He. discriminate He.
      * destruct IH as [k1 [v1 [e1 [Hin1 [He1 Hr]]]]].
        -- intros k' v' msg Hin'. apply Hc. right. exact Hin'.
        -- exists k0, v0, e0. split; assumption.
        -- exists k1, v1, e1. split; [ right; exact Hin1 | ].
           split; [ exact He1 | ]. rewrite Hr. reflexivity.
    + exists k, v, err. split; [ left; reflexivity | ]. split; [ exact E | reflexivity ].
    + exfalso. apply (Hc k v msg (or_introl eq_refl)). exact E.
Qed.

(** *** One turn of the loop *)

(** The creation time a turn reports. *)
Lemma asym_turn_CreationTime (p : Policy.t) (context : bytes)
    (k : string) (v : KeyEntry.t) (key : asymKey.t) :
  asym_turn p context k v = Next key ->
  asymKey.CreationTime key = reported_creation_time v.
Proof.
  unfold asym_turn, reported_creation_time. intros H.
  break_match_in H; try discriminate H; injection H as <-; reflexivity.
Qed.

(** The context matters to a turn of an Ed25519 policy with derivation
    only. *)
Lemma asym_turn_context (p : Policy.t) (c1 c2 : bytes)
    (k : string) (v : KeyEntry.t) :
  derived_ed25519 p = false ->
  asym_turn p c1 k v = asym_turn p c2 k v.
Proof.
  unfold derived_ed25519, asym_turn. intros H.
  destruct (Policy.Type_ p); try reflexivity. rewrite H. reflexivity.
Qed.

Lemma range_asym_context (p : Policy.t) (c1 c2 : bytes)
    (keys : list (string * KeyEntry.t)) :
  derived_ed25519 p = false ->
  range_asym p c1 keys = range_asym p c2 keys.
Proof.
  intros H. induction keys as [|[k v] rest IH]; cbn [range_asym].
  - reflexivity.
  - rewrite (asym_turn_context p c1 c2 k v H), IH. reflexivity.
Qed.



(** An RSA turn that leaves the handler does so with one of the two encoding
    errors, and an RSA turn crashes on a nil key only. *)
Lemma asym_turn_rsa_Leave (p : Policy.t) (context : bytes)
    (k : string) (v : KeyEntry.t) (err : error) :
  Policy.Type_ p = KeyType_RSA2048 \/ Policy.Type_ p = KeyType_RSA4096 ->
  asym_turn p context k v = Leave err ->
  wraps_ErrInvalidRequest err = false.
Proof.
  unfold asym_turn. intros [Ht|Ht] H; rewrite Ht in H;
    break_match_in H; try discriminate H; injection H as <-; reflexivity.
Qed.


End ReadProperties.

Section DescribeProperties.
Context {B : Backend} {PGP : OpenPGPLib}.

Lemma decode_context_nonempty (contextRaw : string) :
  contextRaw <> EmptyString ->
  decode_context contextRaw = base64_DecodeString contextRaw.
Proof.
  unfold decode_context. destruct contextRaw as [|c rest]; intros H.
  - elim H. reflexivity.
  - reflexivity.
Qed.

Lemma describe_context (p : Policy.t) (c1 c2 : string) (b1 b2 : bytes) :
  derived_ed25519 p = false ->
  decode_context c1 = inl b1 ->
  decode_context c2 = inl b2 ->
  describe p c1 = describe p c2.
Proof.
  intros H H1 H2. unfold describe. rewrite H1, H2.
  rewrite (range_asym_context p b1 b2 (Policy.Keys p) H). reflexivity.
Qed.

(** *** The turn of an Ed25519 policy with derivation *)


Lemma asym_turn_ed_bad_version (p : Policy.t) (context : bytes)
    (k : string) (v : KeyEntry.t) (e : string) :
  Policy.Type_ p = KeyType_ED25519 -> Policy.Derived p = true ->
  context <> [] ->
  strconv_Atoi k = inr e ->
  asym_turn p context k v =
    Leave (errwrap_Wrapf ("invalid version " ++ strconv_Quote k ++ ": {{err}}")
             (LibraryError "strconv" e)).
Proof.
  intros Ht Hd Hc He. unfold asym_turn. rewrite Ht, Hd, He.
  destruct context; [ elim Hc; reflexivity | reflexivity ].
Qed.



Lemma asym_turn_ed_Leave (p : Policy.t) (context : bytes)
    (k : string) (v : KeyEntry.t) (err : error) :
  Policy.Type_ p = KeyType_ED25519 -> Policy.Derived p = true ->
  context <> [] ->
  asym_turn p context k v = Leave err ->
  (exists e,
     strconv_Atoi k = inr e
     /\ err = errwrap_Wrapf
                ("invalid version " ++ strconv_Quote k ++ ": {{err}}")
                (LibraryError "strconv" e))
  \/ err = fmt_Errorf "failed to derive key to return public component".
Proof.
  intros Ht Hd Hc H. unfold asym_turn in H. rewrite Ht, Hd in H.
  destruct context as [|c0 context]; [ elim Hc; reflexivity | ].
  cbn [List.length Nat.eqb] in H.
  destruct (strconv_Atoi k) as [ver|e].
  - destruct (Policy_DeriveKey p (c0 :: context) ver 32) as [derived [e|]];
      [ | discriminate H ].
    injection H as <-. right. reflexivity.
  - injection H as <-. left. exists e. split; reflexivity.
Qed.

Lemma asym_turn_ed_no_Crash (p : Policy.t) (context : bytes)
    (k : string) (v : KeyEntry.t) (msg : string) :
  Policy.Type_ p = KeyType_ED25519 ->
  asym_turn p context k v <> Crash msg.
Proof.
  intros Ht H. unfold asym_turn in H. rewrite Ht in H.
  break_match_in H; discriminate H.
Qed.

Lemma describe_identity_other (p : Policy.t) (Data : list (string * value)) :
  Policy.Type_ p <> KeyType_OpenPGP -> describe_identity p Data = Data.
Proof.
  unfold describe_identity. destruct (Policy.Type_ p); intros H;
    try reflexivity. elim H. reflexivity.
Qed.

(** A description of an asymmetric policy that succeeds holds the table that
    the loop has filled. *)
Lemma describe_asymmetric_success
    (p : Policy.t) (contextRaw : string) (resp : Response.t) :
  asymmetric_case (Policy.Type_ p) = true ->
  describe p contextRaw = Returns (Some resp) None ->
  exists context retKeys,
    decode_context contextRaw = inl context
    /\ range_asym p context (Policy.Keys p) = Next retKeys
    /\ Data_get (Response.Data resp) "keys" = Some (VKeysMap retKeys).
Proof.
  intros Ht H.
  destruct (decode_context contextRaw) as [context|e] eqn:Hc.
  - rewrite (describe_asymmetric p contextRaw context Hc Ht) in H.
    destruct (range_asym p context (Policy.Keys p)) as [retKeys| |] eqn:Hr;
      try discriminate H.
    injection H as <-. exists context, retKeys.
    split; [ reflexivity | ]. split; [ exact Hr | ].
    cbn [Response.Data]. apply Data_get_set_same.
  - rewrite (describe_malformed_context p contextRaw e Hc) in H.
    discriminate H.
Qed.

End DescribeProperties.

(** ** The claims about pathPolicyRead *)

Section ReadClaims.
Context {B : Backend} {PGP : OpenPGPLib}.

(** C6: a read whose policy the lock manager has returned, and whose
    [context] field is not empty and is not valid base64, is answered by the
    error response [failed to base64-decode context] together with
    [logical.ErrInvalidRequest].  This holds for every policy, of every type
    and with every table of versions, also one whose versions could not be
    described: the versions are not looked at. *)
Theorem C6_malformed_context_is_refused
    (w w1 : World) (d : FieldData.t) (p : Policy.t) (upserted : bool)
    (e : string) :
  lm_GetPolicy w
    (PolicyRequest.mk false (FieldData.name d) "" "" "" KeyType_zero
       false false false false) = (w1, (Some p, upserted, None)) ->
  FieldData.context d <> EmptyString ->
  base64_DecodeString (FieldData.context d) = inr e ->
  snd (pathPolicyRead w d) =
    Returns (Some (logical_ErrorResponse "failed to base64-decode context"))
      (Some ErrInvalidRequest)
  /\ invalid_request (snd (pathPolicyRead w d)) = true.
Proof.
  intros Hg Hne He.
  assert (E : snd (pathPolicyRead w d) =
              Returns
                (Some (logical_ErrorResponse "failed to base64-decode context"))
                (Some ErrInvalidRequest)).
  { rewrite (pathPolicyRead_describe w w1 d p upserted Hg).
    apply (describe_malformed_context p (FieldData.context d) e).
    rewrite decode_context_nonempty by exact Hne. exact He. }
  split; [ exact E | rewrite E; reflexivity ].
Qed.

(** C9: two reads of the same name in the same world, each with a context
    that is absent or valid base64, give the same result and leave the same
    world, unless the policy read is an Ed25519 policy with derivation. *)
Theorem C9_context_is_ignored
    (w : World) (d1 d2 : FieldData.t) (b1 b2 : bytes) :
  FieldData.name d1 = FieldData.name d2 ->
  decode_context (FieldData.context d1) = inl b1 ->
  decode_context (FieldData.context d2) = inl b2 ->
  (forall w1 p upserted,
     lm_GetPolicy w
       (PolicyRequest.mk false (FieldData.name d1) "" "" "" KeyType_zero
          false false false false) = (w1, (Some p, upserted, None)) ->
     derived_ed25519 p = false) ->
  pathPolicyRead w d1 = pathPolicyRead w d2.
Proof.
  intros Hn H1 H2 Hp. unfold pathPolicyRead. rewrite <- Hn.
  destruct (lm_GetPolicy w _) as [w1 [[p upserted] err]] eqn:Hg.
  destruct err as [err|]; [ reflexivity | ].
  destruct p as [p|]; [ | reflexivity ].
  rewrite (describe_context p _ _ b1 b2 (Hp w1 p upserted eq_refl) H1 H2).
  reflexivity.
Qed.

(** C10: in a description that succeeds of a policy of any of the seven
    types of the asymmetric case (the three ECDSA curves, Ed25519, the two
    RSA sizes, OpenPGP), the table [keys] has one entry per key version, and
    the [creation_time] of the entry is the legacy epoch [time.Unix(
    DeprecatedCreationTime, 0)] when the [CreationTime] of the version is
    zero, and that [CreationTime] otherwise. *)
Theorem C10_creation_time_fallback
    (p : Policy.t) (contextRaw : string) (resp : Response.t) :
  asymmetric_case (Policy.Type_ p) = true ->
  describe p contextRaw = Returns (Some resp) None ->
  exists retKeys,
    Data_get (Response.Data resp) "keys" = Some (VKeysMap retKeys)
    /\ Forall2
         (fun kv entry =>
            fst entry = fst kv
            /\ Data_get (snd entry) "creation_time" =
                 Some (VTime
                         (if Time_IsZero (KeyEntry.CreationTime (snd kv))
                          then time_Unix
                                 (KeyEntry.DeprecatedCreationTime (snd kv))
                          else KeyEntry.CreationTime (snd kv))))
         (Policy.Keys p) retKeys.
Proof.
  intros Ht H.
  destruct (describe_asymmetric_success p contextRaw resp Ht H)
    as [context [retKeys [Hc [Hr Hk]]]].
  exists retKeys. split; [ exact Hk | ].
  apply range_asym_Next in Hr.
  eapply Forall2_impl; [ | exact Hr ].
  intros [k v] entry [key [Hturn ->]]. cbn [fst snd] in *.
  split; [ reflexivity | ].
  apply asym_turn_CreationTime in Hturn.
  unfold reported_creation_time in Hturn. rewrite <- Hturn. reflexivity.
Qed.

End ReadClaims.

(** C6, on the policy store: an AES policy, which never uses the context,
    and an Ed25519 policy whose only version has a key that is no number. *)
Lemma C6_malformed_context_is_refused_witness :
  snd (@pathPolicyRead Demo.backend (Demo.openpgp false) Demo.world
         (Demo.request "aes" "" "!!" false false)) =
    Returns (Some (logical_ErrorResponse "failed to base64-decode context"))
      (Some ErrInvalidRequest)
  /\ snd (@pathPolicyRead Demo.backend (Demo.openpgp false) Demo.world
            (Demo.request "edbad" "" "QUJ" false false)) =
       Returns (Some (logical_ErrorResponse "failed to base64-decode context"))
         (Some ErrInvalidRequest).
Proof.
  split.
  - apply (@C6_malformed_context_is_refused Demo.backend (Demo.openpgp false)
             Demo.world Demo.world (Demo.request "aes" "" "!!" false false)
             Demo.aes_policy false "illegal base64 data");
      [ reflexivity | discriminate | reflexivity ].
  - apply (@C6_malformed_context_is_refused Demo.backend (Demo.openpgp false)
             Demo.world Demo.world (Demo.request "edbad" "" "QUJ" false false)
             Demo.ed_bad_policy false "illegal base64 data");
      [ reflexivity | discriminate | reflexivity ].
Defined.

(** C9, on the policy store: the RSA policy read without a context and with
    the context [QUJD]. *)
Lemma C9_context_is_ignored_witness :
  @pathPolicyRead Demo.backend (Demo.openpgp false) Demo.world
    (Demo.request "k1" "" "" false false)
  = @pathPolicyRead Demo.backend (Demo.openpgp false) Demo.world
      (Demo.request "k1" "" "QUJD" false false).
Proof.
  apply (@C9_context_is_ignored Demo.backend (Demo.openpgp false) Demo.world
           (Demo.request "k1" "" "" false false)
           (Demo.request "k1" "" "QUJD" false false)
           [] [x41; x42; x43]);
    [ reflexivity | reflexivity | reflexivity | ].
  intros w1 p upserted H. injection H as _ <- _. reflexivity.
Defined.

(** C10, on the Ed25519 policy of the store, whose first version has no
    modern time stamp and whose second has one. *)
Lemma C10_creation_time_fallback_witness :
  exists retKeys,
    Data_get
      (Response.Data
         (Response.mk
            (Data_set (@describe_header Demo.backend Demo.ed_policy) "keys"
               (VKeysMap
                  [("1", asymKey.Map
                           (asymKey.mk "ed25519" ""
                              (mkTime (1500000000 + unixToInternal) 0)));
                   ("2", asymKey.Map
                           (asymKey.mk "ed25519" ""
                              (mkTime 63700000000 5)))])) []))
      "keys" = Some (VKeysMap retKeys)
    /\ Forall2
         (fun kv entry =>
            fst entry = fst kv
            /\ Data_get (snd entry) "creation_time" =
                 Some (VTime
                         (if Time_IsZero (KeyEntry.CreationTime (snd kv))
                          then time_Unix
                                 (KeyEntry.DeprecatedCreationTime (snd kv))
                          else KeyEntry.CreationTime (snd kv))))
         (Policy.Keys Demo.ed_policy) retKeys.
Proof.
  apply (@C10_creation_time_fallback Demo.backend (Demo.openpgp false)
           Demo.ed_policy "");
    reflexivity.
Defined.



Section EncodingClaims.
Context {B : Backend} {PGP : OpenPGPLib}.


End EncodingClaims.


Section DerivationClaims.
Context {B : Backend} {PGP : OpenPGPLib}.




(** C5, as the code has it: for an Ed25519 policy with derivation and a
    context that decodes to at least one byte, a version key that is no
    number makes the call return no response and an error.  The error is the
    one wrapping the error of [strconv.Atoi] under [invalid version], for
    some such key, or the error of a derivation that failed on a version
    visited before it; it does not wrap [logical.ErrInvalidRequest] and
    comes without an error response: it tells the caller that the system
    failed, not that the request was invalid. *)
Theorem C5_nonnumeric_version_is_an_internal_error
    (p : Policy.t) (contextRaw : string) (context : bytes) :
  Policy.Type_ p = KeyType_ED25519 ->
  Policy.Derived p = true ->
  decode_context contextRaw = inl context ->
  context <> [] ->
  (exists k v e, In (k, v) (Policy.Keys p) /\ strconv_Atoi k = inr e) ->
  exists err,
    describe p contextRaw = Returns None (Some err)
    /\ ((exists k v e,
           In (k, v) (Policy.Keys p)
           /\ strconv_Atoi k = inr e
           /\ err = errwrap_Wrapf
                      ("invalid version " ++ strconv_Quote k ++ ": {{err}}")
                      (LibraryError "strconv" e))
        \/ err = fmt_Errorf "failed to derive key to return public component")
    /\ internal_error (describe p contextRaw) = true
    /\ invalid_request (describe p contextRaw) = false.
Proof.
  intros Ht Hd Hc Hne [k [v [e [Hin He]]]].
  assert (Ha : asymmetric_case (Policy.Type_ p) = true)
    by (rewrite Ht; reflexivity).
  destruct (range_asym_Leave p context (Policy.Keys p))
    as [k1 [v1 [err [Hin1 [Hturn1 Hr]]]]].
  - intros k' v' msg _. apply asym_turn_ed_no_Crash. exact Ht.
  - exists k, v. eexists. split; [ exact Hin | ].
    apply (asym_turn_ed_bad_version p context k v e); assumption.
  - assert (E : describe p contextRaw = Returns None (Some err)).
    { rewrite (describe_asymmetric p contextRaw context Hc Ha), Hr.
      reflexivity. }
    exists err. split; [ exact E | ]. rewrite E.
    destruct (asym_turn_ed_Leave p context k1 v1 err Ht Hd Hne Hturn1)
      as [[e1 [He1 ->]] | ->].
    + split; [ left; exists k1, v1, e1; repeat split; assumption | ].
      split; reflexivity.
    + split; [ right; reflexivity | ]. split; reflexivity.
Qed.

End DerivationClaims.



(** C5 fails as stated: the policy [edbad] has the version key [abc]; read
    with the context [QUJD], the call returns no response and the wrapped
    error of [strconv.Atoi], which is not an invalid request. *)
Lemma C5_counterexample :
  Policy.Type_ Demo.ed_bad_policy = KeyType_ED25519
  /\ Policy.Derived Demo.ed_bad_policy = true
  /\ @decode_context Demo.backend "QUJD" = inl [x41; x42; x43]
  /\ List.map fst (Policy.Keys Demo.ed_bad_policy) = ["abc"]
  /\ @strconv_Atoi Demo.backend "abc" = inr "invalid syntax"
  /\ @describe Demo.backend (Demo.openpgp false) Demo.ed_bad_policy "QUJD" =
       Returns None
         (Some (errwrap_Wrapf
                  ("invalid version " ++ @strconv_Quote Demo.backend "abc"
                   ++ ": {{err}}")
                  (LibraryError "strconv" "invalid syntax")))
  /\ invalid_request
       (@describe Demo.backend (Demo.openpgp false) Demo.ed_bad_policy "QUJD")
     = false.
Proof. repeat split. Qed.

(** C5 as the code has it, on the same policy and context. *)
Lemma C5_nonnumeric_version_is_an_internal_error_witness :
  exists err,
    @describe Demo.backend (Demo.openpgp false) Demo.ed_bad_policy "QUJD"
      = Returns None (Some err)
    /\ ((exists k v e,
           In (k, v) (Policy.Keys Demo.ed_bad_policy)
           /\ @strconv_Atoi Demo.backend k = inr e
           /\ err = errwrap_Wrapf
                      ("invalid version " ++ @strconv_Quote Demo.backend k
                       ++ ": {{err}}")
                      (LibraryError "strconv" e))
        \/ err = fmt_Errorf "failed to derive key to return public component")
    /\ internal_error
         (@describe Demo.backend (Demo.openpgp false) Demo.ed_bad_policy "QUJD")
       = true
    /\ invalid_request
         (@describe Demo.backend (Demo.openpgp false) Demo.ed_bad_policy "QUJD")
       = false.
Proof.
  apply (@C5_nonnumeric_version_is_an_internal_error Demo.backend
           (Demo.openpgp false) Demo.ed_bad_policy "QUJD" [x41; x42; x43]);
    [ reflexivity | reflexivity | reflexivity | discriminate | ].
  exists "abc", (Demo.entry Demo.seed (mkTime 0 0) 1500000000 None),
    "invalid syntax".
  split; [ left; reflexivity | reflexivity ].
Defined.

(** * Further properties of the handlers *)

(** ** pathPolicyWrite: what is refused, what succeeds, what fails *)

Lemma keyType_of_string_None (t : string) :
  keyType_of_string t = None <-> ~ In t key_type_names.
Proof.
  unfold keyType_of_string, key_type_names.
  repeat match goal with
  | |- context [String.eqb t ?s] =>
      destruct (String.eqb t s) eqn:?;
      [ match goal with
        | H : String.eqb t s = true |- _ =>
            apply String.eqb_eq in H; subst t;
            split; [ discriminate | intros Hn; elim Hn; cbn; tauto ]
        end | ]
  end.
  split; [ | reflexivity ].
  intros _ Hin. cbn in Hin.
  repeat match goal with
  | H : _ \/ _ |- _ => destruct H as [H|H]
  | H : _ = t |- _ => subst t
  | H : String.eqb ?s ?s = false |- _ =>
      rewrite String.eqb_refl in H; discriminate H
  | H : False |- _ => destruct H
  end.
Qed.

Section WriteFurther.
Context {B : Backend}.

(** X1: a request that is not refused for convergent encryption and whose
    [type] is none of the ten names of the switch is answered by the error
    response [unknown key type <type>] together with
    [logical.ErrInvalidRequest]; the world is left as it was, whatever the
    lock manager would have done. *)
Theorem X1_unknown_key_type (w : World) (d : FieldData.t) :
  negb (FieldData.derived d) && FieldData.convergent_encryption d = false ->
  ~ In (FieldData.type d) key_type_names ->
  pathPolicyWrite w d =
    (w, Returns
          (Some (logical_ErrorResponse
                   ("unknown key type " ++ FieldData.type d)))
          (Some ErrInvalidRequest)).
Proof.
  intros Hc Ht. apply keyType_of_string_None in Ht.
  unfold pathPolicyWrite. rewrite Hc, Ht. reflexivity.
Qed.

(** X2: the handler returns [nil, nil] exactly when the request passes the
    check on convergent encryption, its [type] is one of the switch, and the
    lock manager, asked with [Upsert] set and the fields of the request,
    returns a policy and no error; the world is then the one the lock
    manager left, with the policy unlocked if and only if caching is
    disabled. *)
Theorem X2_write_succeeds_iff (w w' : World) (d : FieldData.t) :
  pathPolicyWrite w d = (w', Returns None None)
  <-> negb (FieldData.derived d) && FieldData.convergent_encryption d = false
      /\ exists kt w1 p upserted,
           keyType_of_string (FieldData.type d) = Some kt
           /\ lm_GetPolicy w (write_request d kt)
              = (w1, (Some p, upserted, None))
           /\ w' = (if CachingDisabled w1 then Policy_Unlock p w1 else w1).
Proof.
  unfold pathPolicyWrite, write_request. split.
  - destruct (negb (FieldData.derived d) && FieldData.convergent_encryption d);
      [ discriminate | ].
    destruct (keyType_of_string (FieldData.type d)) as [kt|];
      [ | discriminate ].
    destruct (lm_GetPolicy w _) as [w1 [[p upserted] err]] eqn:Hg.
    destruct err as [e|]; [ discriminate | ].
    destruct p as [p|]; [ | discriminate ].
    intros H. injection H as <-. split; [ reflexivity | ].
    exists kt, w1, p, upserted. repeat split. exact Hg.
  - intros [Hc [kt [w1 [p [upserted [Ht [Hg ->]]]]]]].
    rewrite Hc, Ht, Hg. reflexivity.
Qed.

(** X3: the handler returns a nil response with an error exactly when the
    request passes both checks and the lock manager fails: the error is the
    one of the lock manager, unchanged, or [error generating key: returned
    policy was nil] when the lock manager returns neither a policy nor an
    error. *)
Theorem X3_write_fails_iff (w : World) (d : FieldData.t) (e : error) :
  snd (pathPolicyWrite w d) = Returns None (Some e)
  <-> negb (FieldData.derived d) && FieldData.convergent_encryption d = false
      /\ exists kt w1 p upserted err,
           keyType_of_string (FieldData.type d) = Some kt
           /\ lm_GetPolicy w (write_request d kt) = (w1, (p, upserted, err))
           /\ (err = Some e
               \/ (err = None /\ p = None
                   /\ e = fmt_Errorf
                            "error generating key: returned policy was nil")).
Proof.
  unfold pathPolicyWrite, write_request. split.
  - destruct (negb (FieldData.derived d) && FieldData.convergent_encryption d);
      [ discriminate | ].
    destruct (keyType_of_string (FieldData.type d)) as [kt|];
      [ | discriminate ].
    destruct (lm_GetPolicy w _) as [w1 [[p upserted] err]] eqn:Hg.
    intros H. split; [ reflexivity | ].
    exists kt, w1, p, upserted, err.
    split; [ reflexivity | ]. split; [ exact Hg | ].
    destruct err as [e'|].
    + cbn in H. injection H as <-. left. reflexivity.
    + destruct p as [p|]; cbn in H; [ discriminate H | ].
      injection H as <-. right. repeat split.
  - intros [Hc [kt [w1 [p [upserted [err [Ht [Hg Hor]]]]]]]].
    rewrite Hc, Ht, Hg.
    destruct Hor as [-> | [-> [-> ->]]]; reflexivity.
Qed.

End WriteFurther.

(** X1, on the store, for the type [rsa-1024]. *)
Lemma X1_unknown_key_type_witness :
  @pathPolicyWrite Demo.backend Demo.world
    (Demo.request "fresh" "rsa-1024" "" true true) =
    (Demo.world,
     Returns (Some (logical_ErrorResponse "unknown key type rsa-1024"))
       (Some ErrInvalidRequest)).
Proof.
  apply (@X1_unknown_key_type Demo.backend Demo.world
           (Demo.request "fresh" "rsa-1024" "" true true)).
  - reflexivity.
  - apply keyType_of_string_None. reflexivity.
Defined.

(** ** extractOpenPGP: errors and the public case *)

Section ExtractOpenPGPFurther.
Context {PGP : OpenPGPLib}.

(** X17: whenever [extractOpenPGP] returns an error, the text and the
    identity it returns are both empty, and the error is not
    [logical.ErrInvalidRequest] nor wraps it. *)
Theorem X17_extractOpenPGP_error_has_no_text
    (key : bytes) (blockType retkey identity : string) (err : error) :
  extractOpenPGP key blockType = (retkey, identity, Some err) ->
  retkey = EmptyString /\ identity = EmptyString
  /\ wraps_ErrInvalidRequest err = false.
Proof.
  unfold extractOpenPGP. intros H.
  break_match_in H; try discriminate H;
    injection H as <- <- <-; repeat split.
Qed.

(** X18: for the public block type, [extractOpenPGP] returns a nil error
    exactly when the ring holds an entity and [armor.Encode],
    [entity.Serialize] and [Close] all succeed; the text is then the buffer
    after these calls, and the identity is the first one of the first entity
    of the ring ([""] if it declares none). *)
Theorem X18_extractOpenPGP_public_success_iff
    (key : bytes) (retkey identity : string) :
  extractOpenPGP key openpgp_PublicKeyType = (retkey, identity, None)
  <-> exists entity rest pgpArmored w1 w2,
        openpgp_ReadKeyRing key = inl (entity :: rest)
        /\ armor_Encode openpgp_PublicKeyType = inl pgpArmored
        /\ Entity_Serialize entity pgpArmored = (w1, None)
        /\ ArmorWriter_Close w1 = (w2, None)
        /\ retkey = Buffer_String w2
        /\ identity = first_identity entity.
Proof.
  unfold extractOpenPGP.
  change (String.eqb openpgp_PublicKeyType openpgp_PublicKeyType) with true.
  cbv iota. split.
  - destruct (openpgp_ReadKeyRing key) as [[|entity rest]|e];
      try discriminate.
    destruct (armor_Encode openpgp_PublicKeyType) as [pgpArmored|e];
      try discriminate.
    destruct (Entity_Serialize entity pgpArmored) as [w1 [e|]] eqn:Hs;
      try discriminate.
    destruct (ArmorWriter_Close w1) as [w2 [e|]] eqn:Hc; try discriminate.
    intros H. injection H as <- <-.
    exists entity, rest, pgpArmored, w1, w2. repeat split; assumption.
  - intros [entity [rest [pgpArmored [w1 [w2 [-> [-> [Hs [Hc [-> ->]]]]]]]]]].
    rewrite Hs, Hc. reflexivity.
Qed.

End ExtractOpenPGPFurther.

(** X17, on a ring without entity, asked for the private block. *)
Lemma X17_extractOpenPGP_error_has_no_text_witness :
  @extractOpenPGP (Demo.openpgp false) [] openpgp_PrivateKeyType =
    (EmptyString, EmptyString,
     Some (fmt_Errorf "No entities found in OpenPGP key ring"))
  /\ wraps_ErrInvalidRequest
       (fmt_Errorf "No entities found in OpenPGP key ring") = false.
Proof.
  split; [ reflexivity | ].
  apply (@X17_extractOpenPGP_error_has_no_text (Demo.openpgp false) []
           openpgp_PrivateKeyType "" ""
           (fmt_Errorf "No entities found in OpenPGP key ring")).
  reflexivity.
Defined.

(** ** pathPolicyDelete *)

Section DeleteFurther.
Context {B : Backend} {D : Deleter}.

(** X20: the delete handler leaves the world as the lock manager left it.
    It returns [nil, nil] exactly when the lock manager reports no error;
    when the lock manager fails with [err] it returns that same error
    together with the error response [error deleting policy <name>: <text of
    err>]. *)
Theorem X20_delete_reports_failure (w : World) (d : FieldData.t) :
  fst (pathPolicyDelete w d) = fst (lm_DeletePolicy w (FieldData.name d))
  /\ (snd (pathPolicyDelete w d) = Returns None None
      <-> snd (lm_DeletePolicy w (FieldData.name d)) = None)
  /\ (forall err,
        snd (lm_DeletePolicy w (FieldData.name d)) = Some err ->
        snd (pathPolicyDelete w d) =
          Returns
            (Some (logical_ErrorResponse
                     ("error deleting policy " ++ FieldData.name d ++ ": "
                      ++ error_Error err)))
            (Some err)
        /\ IsError
             (Some (logical_ErrorResponse
                      ("error deleting policy " ++ FieldData.name d ++ ": "
                       ++ error_Error err))) = true).
Proof.
  unfold pathPolicyDelete.
  destruct (lm_DeletePolicy w (FieldData.name d)) as [w1 [e|]]; cbn [fst snd].
  - split; [ reflexivity | ]. split.
    + split; discriminate.
    + intros err H. injection H as <-. split; reflexivity.
  - split; [ reflexivity | ]. split.
    + split; reflexivity.
    + intros err H. discriminate H.
Qed.

End DeleteFurther.

(** ** pathPolicyRead: the outcomes of a description *)

Lemma Data_get_set_other
    (m : list (string * value)) (k k' : string) (v : value) :
  k <> k' -> Data_get (Data_set m k v) k' = Data_get m k'.
Proof.
  intros Hne. induction m as [|[k0 v0] rest IH]; cbn [Data_set Data_get].
  - destruct (String.eqb k k') eqn:E; [ | reflexivity ].
    apply String.eqb_eq in E. elim Hne. exact E.
  - destruct (String.eqb k0 k) eqn:E; cbn [Data_get].
    + apply String.eqb_eq in E. subst k0.
      destruct (String.eqb k k') eqn:E'; [ | reflexivity ].
      apply String.eqb_eq in E'. elim Hne. exact E'.
    + rewrite IH. reflexivity.
Qed.

Lemma Forall2_map_fst (A C : Type) (P : string * A -> string * C -> Prop)
    (l : list (string * A)) (l' : list (string * C)) :
  (forall x y, P x y -> fst y = fst x) ->
  Forall2 P l l' -> List.map fst l' = List.map fst l.
Proof.
  intros HP H. induction H as [|x y l l' Hxy _ IH]; cbn [List.map].
  - reflexivity.
  - rewrite (HP x y Hxy), IH. reflexivity.
Qed.

Section DescribeOutcomes.
Context {B : Backend} {PGP : OpenPGPLib}.

Lemma extractOpenPGP_error_internal
    (key : bytes) (blockType retkey identity : string) (err : error) :
  extractOpenPGP key blockType = (retkey, identity, Some err) ->
  wraps_ErrInvalidRequest err = false.
Proof.
  unfold extractOpenPGP. intros H.
  break_match_in H; try discriminate H; injection H as <- <- <-; reflexivity.
Qed.

(** A turn that leaves the handler does so with an error that does not wrap
    [logical.ErrInvalidRequest]. *)
Lemma asym_turn_Leave_internal (p : Policy.t) (context : bytes)
    (k : string) (v : KeyEntry.t) (err : error) :
  asym_turn p context k v = Leave err ->
  wraps_ErrInvalidRequest err = false.
Proof.
  unfold asym_turn. intros H.
  destruct (Policy.Type_ p); try discriminate H.
  - destruct (Policy.Derived p); [ | discriminate H ].
    destruct (Nat.eqb (List.length context) 0); [ discriminate H | ].
    destruct (strconv_Atoi k) as [ver|e].
    + destruct (Policy_DeriveKey p context ver 32) as [derived [e|]];
        [ | discriminate H ].
      injection H as <-. reflexivity.
    + injection H as <-. reflexivity.
  - break_match_in H; try discriminate H; injection H as <-; reflexivity.
  - break_match_in H; try discriminate H; injection H as <-; reflexivity.
  - destruct (extractOpenPGP (KeyEntry.Key v) openpgp_PublicKeyType)
      as [[pubkey idkey] [e|]] eqn:E; [ | discriminate H ].
    injection H as <-.
    apply (extractOpenPGP_error_internal _ _ _ _ _ E).
Qed.

(** A turn crashes for an RSA policy only, on a version without key pair. *)
Lemma asym_turn_Crash (p : Policy.t) (context : bytes)
    (k : string) (v : KeyEntry.t) (msg : string) :
  asym_turn p context k v = Crash msg ->
  (Policy.Type_ p = KeyType_RSA2048 \/ Policy.Type_ p = KeyType_RSA4096)
  /\ KeyEntry.RSAKey v = None.
Proof.
  unfold asym_turn. intros H.
  destruct (Policy.Type_ p) eqn:Ht;
    break_match_in H; try discriminate H;
    (split; [ first [ left; reflexivity | right; reflexivity ]
            | reflexivity ]).
Qed.

Lemma range_asym_Leave_inv (p : Policy.t) (context : bytes)
    (keys : list (string * KeyEntry.t)) (err : error) :
  range_asym p context keys = Leave err ->
  exists k v, In (k, v) keys /\ asym_turn p context k v = Leave err.
Proof.
  induction keys as [|[k v] rest IH]; cbn [range_asym]; intros H.
  - discriminate H.
  - destruct (asym_turn p context k v) as [key|e|msg] eqn:E.
    + destruct (range_asym p context rest) as [tl|e|msg];
        try discriminate H.
      injection H as ->. destruct (IH eq_refl) as [k' [v' [Hin Ht]]].
      exists k', v'. split; [ right; exact Hin | exact Ht ].
    + injection H as ->. exists k, v. split; [ left; reflexivity | exact E ].
    + discriminate H.
Qed.

Lemma range_asym_Crash_inv (p : Policy.t) (context : bytes)
    (keys : list (string * KeyEntry.t)) (msg : string) :
  range_asym p context keys = Crash msg ->
  exists k v, In (k, v) keys /\ asym_turn p context k v = Crash msg.
Proof.
  induction keys as [|[k v] rest IH]; cbn [range_asym]; intros H.
  - discriminate H.
  - destruct (asym_turn p context k v) as [key|e|m] eqn:E.
    + destruct (range_asym p context rest) as [tl|e|m];
        try discriminate H.
      injection H as ->. destruct (IH eq_refl) as [k' [v' [Hin Ht]]].
      exists k', v'. split; [ right; exact Hin | exact Ht ].
    + discriminate H.
    + injection H as ->. exists k, v. split; [ left; reflexivity | exact E ].
Qed.

(** The three ways a description ends once the context is decoded. *)
Lemma describe_decoded_cases
    (p : Policy.t) (contextRaw : string) (context : bytes) :
  decode_context contextRaw = inl context ->
  (exists resp, describe p contextRaw = Returns (Some resp) None)
  \/ (exists err k v,
        describe p contextRaw = Returns None (Some err)
        /\ In (k, v) (Policy.Keys p)
        /\ asym_turn p context k v = Leave err)
  \/ (exists msg k v,
        describe p contextRaw = Panics msg
        /\ In (k, v) (Policy.Keys p)
        /\ asym_turn p context k v = Crash msg).
Proof.
  intros Hc.
  destruct (asymmetric_case (Policy.Type_ p)) eqn:Ha.
  - rewrite (describe_asymmetric p contextRaw context Hc Ha).
    destruct (range_asym p context (Policy.Keys p)) as [retKeys|err|msg] eqn:Hr.
    + left. eexists. reflexivity.
    + right. left. destruct (range_asym_Leave_inv _ _ _ _ Hr) as [k [v [Hin Ht]]].
      exists err, k, v. repeat split; assumption.
    + right. right.
      destruct (range_asym_Crash_inv _ _ _ _ Hr) as [k [v [Hin Ht]]].
      exists msg, k, v. repeat split; assumption.
  - left. unfold describe. rewrite Hc.
    destruct (Policy.Type_ p); try discriminate Ha; eexists; reflexivity.
Qed.

(** What a description that succeeds holds besides the fields added after the
    header. *)
Lemma describe_success_fields
    (p : Policy.t) (contextRaw : string) (resp : Response.t) (k : string) :
  describe p contextRaw = Returns (Some resp) None ->
  ~ In k late_fields ->
  Data_get (Response.Data resp) k = Data_get (describe_header p) k.
Proof.
  intros H Hk.
  assert (Hkeys : "keys" <> k) by (intros <-; apply Hk; cbn; tauto).
  assert (Hrn : "real_name" <> k) by (intros <-; apply Hk; cbn; tauto).
  assert (Hem : "email" <> k) by (intros <-; apply Hk; cbn; tauto).
  assert (Hco : "comment" <> k) by (intros <-; apply Hk; cbn; tauto).
  unfold describe in H.
  destruct (decode_context contextRaw) as [context|e]; [ | discriminate H ].
  unfold describe_identity in H.
  destruct (Policy.Type_ p);
    try (destruct (range_asym p context (Policy.Keys p));
         try discriminate H);
    injection H as <-; cbn [Response.Data];
    repeat (rewrite Data_get_set_other by assumption); reflexivity.
Qed.

Lemma describe_header_name (p : Policy.t) :
  Data_get (describe_header p) "name" = Some (VString (Policy.Name p)).
Proof.
  unfold describe_header.
  destruct (Policy.BackupInfo p), (Policy.RestoreInfo p), (Policy.Derived p),
    (Policy.KDF_ p), (Policy.ConvergentEncryption p); reflexivity.
Qed.

(** A description that succeeds is no error response. *)
Lemma describe_success_not_error
    (p : Policy.t) (contextRaw : string) (resp : Response.t) :
  describe p contextRaw = Returns (Some resp) None ->
  IsError (Some resp) = false.
Proof.
  intros H.
  pose proof (describe_success_fields p contextRaw resp "name" H) as Hn.
  rewrite describe_header_name in Hn.
  unfold IsError. destruct (Response.Data resp) as [|[k v] [|kv rest]];
    try reflexivity.
  destruct (String.eqb k "error") eqn:E; [ | reflexivity ].
  apply String.eqb_eq in E. subst k.
  cbn in Hn. assert (Hin : ~ In "name" late_fields).
  { cbn. intros [F|[F|[F|[F|[]]]]]; discriminate F. }
  specialize (Hn Hin). discriminate Hn.
Qed.

(** X6: a description tells the caller that the request was invalid exactly
    when the [context] field cannot be decoded.  Every other failure, of
    whatever policy type, comes without a response and with an error that
    does not wrap [logical.ErrInvalidRequest]. *)
Theorem X6_invalid_request_iff_malformed_context
    (p : Policy.t) (contextRaw : string) :
  (invalid_request (describe p contextRaw) = true
   <-> exists e, decode_context contextRaw = inr e)
  /\ (forall err,
        describe p contextRaw = Returns None (Some err) ->
        internal_error (describe p contextRaw) = true).
Proof.
  assert (Hdec : forall context,
             decode_context contextRaw = inl context ->
             invalid_request (describe p contextRaw) = false
             /\ (forall err,
                   describe p contextRaw = Returns None (Some err) ->
                   wraps_ErrInvalidRequest err = false)).
  { intros context Hc.
    destruct (describe_decoded_cases p contextRaw context Hc)
      as [[resp H] | [[err [k [v [H [Hin Ht]]]]] | [msg [k [v [H _]]]]]];
      rewrite H.
    - split; [ | discriminate ].
      cbn [invalid_request].
      rewrite (describe_success_not_error p contextRaw resp H). reflexivity.
    - pose proof (asym_turn_Leave_internal p context k v err Ht) as Hw.
      split.
      + cbn [invalid_request IsError]. rewrite Hw. reflexivity.
      + intros err' E. injection E as <-. exact Hw.
    - split; [ reflexivity | discriminate ]. }
  split.
  - split.
    + intros H. destruct (decode_context contextRaw) as [context|e] eqn:Hc.
      * destruct (Hdec context eq_refl) as [Hf _]. rewrite Hf in H.
        discriminate H.
      * exists e. reflexivity.
    + intros [e He]. rewrite (describe_malformed_context p contextRaw e He).
      reflexivity.
  - intros err H.
    destruct (decode_context contextRaw) as [context|e] eqn:Hc.
    + destruct (Hdec context eq_refl) as [_ Hw].
      rewrite H. cbn [internal_error]. rewrite (Hw err H). reflexivity.
    + rewrite (describe_malformed_context p contextRaw e Hc) in H.
      discriminate H.
Qed.

(** X7: as long as the derivation of a version, when it succeeds, returns
    the 32 bytes asked for or more, so that [Public()] finds its bytes, a
    description panics only for an RSA policy, on a context that is absent
    or decodes, and only if some version of the policy has no key pair. *)
Theorem X7_panic_needs_nil_RSAKey
    (p : Policy.t) (contextRaw msg : string) :
  (forall context ver derived,
     Policy_DeriveKey p context ver 32 = (derived, None) ->
     (32 <= List.length derived)%nat) ->
  describe p contextRaw = Panics msg ->
  (Policy.Type_ p = KeyType_RSA2048 \/ Policy.Type_ p = KeyType_RSA4096)
  /\ (exists context, decode_context contextRaw = inl context)
  /\ exists k v, In (k, v) (Policy.Keys p) /\ KeyEntry.RSAKey v = None.
Proof.
  intros _ H.
  destruct (decode_context contextRaw) as [context|e] eqn:Hc.
  - destruct (describe_decoded_cases p contextRaw context Hc)
      as [[resp H'] | [[err [k [v [H' _]]]] | [msg' [k [v [H' [Hin Ht]]]]]]];
      rewrite H' in H; try discriminate H.
    destruct (asym_turn_Crash p context k v msg' Ht) as [Hty Hnil].
    split; [ exact Hty | ]. split; [ exists context; reflexivity | ].
    exists k, v. split; assumption.
  - rewrite (describe_malformed_context p contextRaw e Hc) in H.
    discriminate H.
Qed.

(** X4: a read returns [nil, nil] exactly when the lock manager returns no
    policy and no error: a policy that is found is never answered by an
    empty success. *)
Theorem X4_read_empty_iff_absent (w : World) (d : FieldData.t) :
  snd (pathPolicyRead w d) = Returns None None
  <-> exists w1 upserted,
        lm_GetPolicy w (read_request d) = (w1, (None, upserted, None)).
Proof.
  unfold pathPolicyRead, read_request. split.
  - destruct (lm_GetPolicy w _) as [w1 [[p upserted] err]] eqn:Hg.
    destruct err as [e|]; [ discriminate | ].
    destruct p as [p|].
    + cbn [snd]. intros H. exfalso.
      destruct (decode_context (FieldData.context d)) as [context|e] eqn:Hc.
      * destruct (describe_decoded_cases p _ context Hc)
          as [[resp H'] | [[err [k [v [H' _]]]] | [msg [k [v [H' _]]]]]];
          rewrite H' in H; discriminate H.
      * rewrite (describe_malformed_context p _ e Hc) in H. discriminate H.
    + intros _. exists w1, upserted. reflexivity.
  - intros [w1 [upserted Hg]]. rewrite Hg. reflexivity.
Qed.

(** X5: the world a read leaves does not depend on the [context] field nor
    on the outcome of the description: two reads of the same name in the
    same world leave the same world, so the policy is locked and unlocked
    alike when the description fails or panics. *)
Theorem X5_read_world_ignores_context (w : World) (d1 d2 : FieldData.t) :
  FieldData.name d1 = FieldData.name d2 ->
  fst (pathPolicyRead w d1) = fst (pathPolicyRead w d2).
Proof.
  intros Hn. unfold pathPolicyRead. rewrite <- Hn.
  destruct (lm_GetPolicy w _) as [w1 [[p upserted] err]].
  destruct err as [e|]; [ reflexivity | ].
  destruct p as [p|]; reflexivity.
Qed.

End DescribeOutcomes.

(** The engine of the store returns 64 bytes when it succeeds. *)
Lemma Demo_DeriveKey_length (p : Policy.t) (context : bytes) (ver : Z)
    (derived : bytes) :
  Demo.DeriveKey p context ver 32 = (derived, None) ->
  List.length derived = 64%nat.
Proof.
  unfold Demo.DeriveKey. intros H.
  destruct context as [|c context]; [ discriminate H | ].
  destruct (Demo.version_entry ver (Policy.Keys p)) as [v|];
    [ | discriminate H ].
  apply (f_equal fst) in H. cbn [fst] in H. rewrite <- H.
  rewrite List.length_app, !List.length_firstn, !List.length_app,
    !List.repeat_length.
  cbn [List.length]. lia.
Qed.

(** X7, on an RSA policy whose version has no key pair. *)
Lemma X7_panic_needs_nil_RSAKey_witness :
  @describe Demo.backend (Demo.openpgp false) Demo.rsa_nil_policy "" =
    Panics "invalid memory address or nil pointer dereference"
  /\ exists k v,
       In (k, v) (Policy.Keys Demo.rsa_nil_policy)
       /\ KeyEntry.RSAKey v = None.
Proof.
  split; [ reflexivity | ].
  apply (@X7_panic_needs_nil_RSAKey Demo.backend (Demo.openpgp false)
           Demo.rsa_nil_policy ""
           "invalid memory address or nil pointer dereference").
  - intros context ver derived H.
    rewrite (Demo_DeriveKey_length _ _ _ _ H). lia.
  - reflexivity.
Defined.

(** X5, on the store: the Ed25519 policy with the bad version key, read with
    a context that makes the description fail and with one that cannot be
    decoded. *)
Lemma X5_read_world_ignores_context_witness :
  fst (@pathPolicyRead Demo.backend (Demo.openpgp false) Demo.world
         (Demo.request "edbad" "" "QUJD" false false))
  = fst (@pathPolicyRead Demo.backend (Demo.openpgp false) Demo.world
           (Demo.request "edbad" "" "!!" false false)).
Proof.
  apply (@X5_read_world_ignores_context Demo.backend (Demo.openpgp false)
           Demo.world (Demo.request "edbad" "" "QUJD" false false)
           (Demo.request "edbad" "" "!!" false false)).
  reflexivity.
Defined.

(** ** pathPolicyRead: what a description holds *)

Ltac header_cases p :=
  unfold describe_header;
  destruct (Policy.BackupInfo p), (Policy.RestoreInfo p), (Policy.Derived p),
    (Policy.KDF_ p), (Policy.ConvergentEncryption p); reflexivity.

Ltac early_field :=
  cbn; intros [F|[F|[F|[F|[]]]]]; discriminate F.

Section DescribeContents.
Context {B : Backend} {PGP : OpenPGPLib}.

(** X9: a symmetric policy is described without failure as soon as the
    context is absent or decodes, whatever its versions hold, and its table
    [keys] maps every version to the legacy epoch [DeprecatedCreationTime] of
    the version: the modern [CreationTime] is not reported. *)
Theorem X9_symmetric_keys
    (p : Policy.t) (contextRaw : string) (context : bytes) :
  symmetric_case (Policy.Type_ p) = true ->
  decode_context contextRaw = inl context ->
  describe p contextRaw =
    Returns
      (Some (Response.mk
               (Data_set (describe_header p) "keys"
                  (VInt64Map
                     (List.map
                        (fun kv =>
                           (fst kv, KeyEntry.DeprecatedCreationTime (snd kv)))
                        (Policy.Keys p)))) []))
      None.
Proof.
  intros Ht Hc. unfold describe. rewrite Hc.
  destruct (Policy.Type_ p); try discriminate Ht; reflexivity.
Qed.

(** X10: an ECDSA policy, and an Ed25519 policy without derivation, are
    described without failure as soon as the context is absent or decodes;
    every version is named after the curve ([P-256], [P-384], [P-521] or
    [ed25519]) and its [public_key] is the [FormattedPublicKey] stored with
    the version, unchanged. *)
Theorem X10_stored_public_key
    (p : Policy.t) (contextRaw : string) (context : bytes) :
  Policy.Type_ p = KeyType_ECDSA_P256 \/ Policy.Type_ p = KeyType_ECDSA_P384
  \/ Policy.Type_ p = KeyType_ECDSA_P521
  \/ (Policy.Type_ p = KeyType_ED25519 /\ Policy.Derived p = false) ->
  decode_context contextRaw = inl context ->
  describe p contextRaw =
    Returns
      (Some (Response.mk
               (Data_set (describe_header p) "keys"
                  (VKeysMap
                     (List.map
                        (fun kv =>
                           (fst kv,
                            asymKey.Map
                              (asymKey.mk (curve_name (Policy.Type_ p))
                                 (KeyEntry.FormattedPublicKey (snd kv))
                                 (reported_creation_time (snd kv)))))
                        (Policy.Keys p)))) []))
      None.
Proof.
  intros Ht Hc.
  assert (Ha : asymmetric_case (Policy.Type_ p) = true)
    by (destruct Ht as [-> | [-> | [-> | [-> _]]]]; reflexivity).
  assert (Hi : describe_identity p (describe_header p) = describe_header p).
  { apply describe_identity_other.
    destruct Ht as [-> | [-> | [-> | [-> _]]]]; discriminate. }
  rewrite (describe_asymmetric p contextRaw context Hc Ha), Hi.
  rewrite (range_asym_all_Next p context
             (fun _ v =>
                asymKey.mk (curve_name (Policy.Type_ p))
                  (KeyEntry.FormattedPublicKey v) (reported_creation_time v))).
  - reflexivity.
  - intros k v _. unfold asym_turn, reported_creation_time.
    destruct Ht as [Ht | [Ht | [Ht | [Ht Hd]]]]; rewrite Ht;
      try rewrite Hd; reflexivity.
Qed.

(** X11: in a description that succeeds of an OpenPGP policy, the response
    holds the [real_name], [email] and [comment] of the policy, and every
    version has an entry whose [public_key] is the text that
    [extractOpenPGP] returns for the stored key and the public block type,
    and whose [name] is the identity that call returns, or [openpgp] when
    that identity is empty. *)
Theorem X11_openpgp_description
    (p : Policy.t) (contextRaw : string) (resp : Response.t) :
  Policy.Type_ p = KeyType_OpenPGP ->
  describe p contextRaw = Returns (Some resp) None ->
  Data_get (Response.Data resp) "real_name"
    = Some (VString (Policy.RealName p))
  /\ Data_get (Response.Data resp) "email" = Some (VString (Policy.Email p))
  /\ Data_get (Response.Data resp) "comment"
     = Some (VString (Policy.Comment p))
  /\ exists retKeys,
       Data_get (Response.Data resp) "keys" = Some (VKeysMap retKeys)
       /\ Forall2
            (fun kv entry =>
               exists pubkey idkey,
                 extractOpenPGP (KeyEntry.Key (snd kv)) openpgp_PublicKeyType
                 = (pubkey, idkey, None)
                 /\ entry =
                      (fst kv,
                       asymKey.Map
                         (asymKey.mk
                            (if String.eqb idkey "" then "openpgp" else idkey)
                            pubkey (reported_creation_time (snd kv)))))
            (Policy.Keys p) retKeys.
Proof.
  intros Ht H.
  assert (Ha : asymmetric_case (Policy.Type_ p) = true)
    by (rewrite Ht; reflexivity).
  destruct (decode_context contextRaw) as [context|e] eqn:Hc.
  2:{ rewrite (describe_malformed_context p contextRaw e Hc) in H.
      discriminate H. }
  rewrite (describe_asymmetric p contextRaw context Hc Ha) in H.
  destruct (range_asym p context (Policy.Keys p)) as [retKeys| |] eqn:Hr;
    try discriminate H.
  injection H as <-. cbn [Response.Data].
  unfold describe_identity. rewrite Ht.
  split; [ | split; [ | split ] ].
  - rewrite !Data_get_set_other by discriminate. apply Data_get_set_same.
  - rewrite !Data_get_set_other by discriminate. apply Data_get_set_same.
  - rewrite !Data_get_set_other by discriminate. apply Data_get_set_same.
  - exists retKeys. split; [ apply Data_get_set_same | ].
    apply range_asym_Next in Hr.
    eapply Forall2_impl; [ | exact Hr ].
    intros [k v] entry [key [Hturn ->]]. cbn [fst snd] in *.
    unfold asym_turn in Hturn. rewrite Ht in Hturn.
    destruct (extractOpenPGP (KeyEntry.Key v) openpgp_PublicKeyType)
      as [[pubkey idkey] [e|]]; [ discriminate Hturn | ].
    injection Hturn as <-. exists pubkey, idkey. split; reflexivity.
Qed.

(** X12: when [extractOpenPGP] fails on the stored key of some version of an
    OpenPGP policy, and the context is absent or decodes, the description
    returns no response and the error of [extractOpenPGP] for a version of
    the policy, unchanged. *)
Theorem X12_openpgp_failure_surfaces
    (p : Policy.t) (contextRaw : string) (context : bytes) :
  Policy.Type_ p = KeyType_OpenPGP ->
  decode_context contextRaw = inl context ->
  (exists k v pubkey idkey e,
     In (k, v) (Policy.Keys p)
     /\ extractOpenPGP (KeyEntry.Key v) openpgp_PublicKeyType
        = (pubkey, idkey, Some e)) ->
  exists err k v pubkey idkey,
    describe p contextRaw = Returns None (Some err)
    /\ In (k, v) (Policy.Keys p)
    /\ extractOpenPGP (KeyEntry.Key v) openpgp_PublicKeyType
       = (pubkey, idkey, Some err).
Proof.
  intros Ht Hc [k [v [pubkey [idkey [e [Hin He]]]]]].
  assert (Ha : asymmetric_case (Policy.Type_ p) = true)
    by (rewrite Ht; reflexivity).
  destruct (range_asym_Leave p context (Policy.Keys p))
    as [k1 [v1 [err [Hin1 [Hturn1 Hr]]]]].
  - intros k' v' msg _ Hcrash.
    destruct (asym_turn_Crash p context k' v' msg Hcrash) as [[F|F] _];
      rewrite Ht in F; discriminate F.
  - exists k, v, e. split; [ exact Hin | ].
    unfold asym_turn. rewrite Ht, He. reflexivity.
  - unfold asym_turn in Hturn1. rewrite Ht in Hturn1.
    destruct (extractOpenPGP (KeyEntry.Key v1) openpgp_PublicKeyType)
      as [[pubkey1 idkey1] [e1|]] eqn:E1; [ | discriminate Hturn1 ].
    injection Hturn1 as <-.
    exists e1, k1, v1, pubkey1, idkey1.
    split; [ | split; [ exact Hin1 | exact E1 ] ].
    rewrite (describe_asymmetric p contextRaw context Hc Ha), Hr.
    reflexivity.
Qed.

(** X13: a description that succeeds lists the versions of the policy, and
    no other: for a type of the switch its table [keys] has the keys of
    [p.Keys]; for any other type the response has no [keys] at all. *)
Theorem X13_versions_are_listed
    (p : Policy.t) (contextRaw : string) (resp : Response.t) :
  describe p contextRaw = Returns (Some resp) None ->
  match Policy.Type_ p with
  | KeyType_other _ => Data_get (Response.Data resp) "keys" = None
  | _ =>
      exists table,
        Data_get (Response.Data resp) "keys" = Some table
        /\ table_versions table = Some (List.map fst (Policy.Keys p))
  end.
Proof.
  intros H.
  destruct (decode_context contextRaw) as [context|e] eqn:Hc.
  2:{ rewrite (describe_malformed_context p contextRaw e Hc) in H.
      discriminate H. }
  destruct (asymmetric_case (Policy.Type_ p)) eqn:Ha.
  - rewrite (describe_asymmetric p contextRaw context Hc Ha) in H.
    destruct (range_asym p context (Policy.Keys p)) as [retKeys| |] eqn:Hr;
      try discriminate H.
    injection H as <-. cbn [Response.Data].
    assert (Hv : List.map fst retKeys = List.map fst (Policy.Keys p)).
    { apply range_asym_Next in Hr.
      eapply Forall2_map_fst; [ | exact Hr ].
      intros x y [key [_ ->]]. reflexivity. }
    destruct (Policy.Type_ p); try discriminate Ha;
      (eexists; split; [ apply Data_get_set_same | cbn; rewrite Hv; reflexivity ]).
  - unfold describe in H. rewrite Hc in H.
    destruct (Policy.Type_ p); try discriminate Ha;
      injection H as <-; cbn [Response.Data].
    + eexists. split; [ apply Data_get_set_same | ].
      cbn. unfold range_sym. rewrite List.map_map. reflexivity.
    + eexists. split; [ apply Data_get_set_same | ].
      cbn. unfold range_sym. rewrite List.map_map. reflexivity.
    + eexists. split; [ apply Data_get_set_same | ].
      cbn. unfold range_sym. rewrite List.map_map. reflexivity.
    + header_cases p.
Qed.

(** X14: a description that succeeds echoes the policy: its name, the string
    of its type, its flags, its version bounds and what its type supports,
    whatever the context and the type. *)
Theorem X14_description_echoes_policy
    (p : Policy.t) (contextRaw : string) (resp : Response.t) :
  describe p contextRaw = Returns (Some resp) None ->
  let field := Data_get (Response.Data resp) in
  field "name" = Some (VString (Policy.Name p))
  /\ field "type" = Some (VString (KeyType_String (Policy.Type_ p)))
  /\ field "derived" = Some (VBool (Policy.Derived p))
  /\ field "deletion_allowed" = Some (VBool (Policy.DeletionAllowed p))
  /\ field "min_available_version"
     = Some (VInt (Policy.MinAvailableVersion p))
  /\ field "min_decryption_version"
     = Some (VInt (Policy.MinDecryptionVersion p))
  /\ field "min_encryption_version"
     = Some (VInt (Policy.MinEncryptionVersion p))
  /\ field "latest_version" = Some (VInt (Policy.LatestVersion p))
  /\ field "exportable" = Some (VBool (Policy.Exportable p))
  /\ field "allow_plaintext_backup"
     = Some (VBool (Policy.AllowPlaintextBackup p))
  /\ field "supports_encryption"
     = Some (VBool (EncryptionSupported (Policy.Type_ p)))
  /\ field "supports_decryption"
     = Some (VBool (DecryptionSupported (Policy.Type_ p)))
  /\ field "supports_signing"
     = Some (VBool (SigningSupported (Policy.Type_ p)))
  /\ field "supports_derivation"
     = Some (VBool (DerivationSupported (Policy.Type_ p))).
Proof.
  intros H field. subst field.
  repeat split;
    (rewrite (describe_success_fields p contextRaw resp _ H) by early_field;
     header_cases p).
Qed.

(** X15: the derivation fields of a description that succeeds.  Without
    derivation the response has none of [kdf], [kdf_mode],
    [convergent_encryption], [convergent_encryption_version].  With
    derivation it has [convergent_encryption]; it has
    [convergent_encryption_version] only for a convergent policy; [kdf] is
    [hmac-sha256-counter] or [hkdf_sha256] after the KDF of the policy and
    absent for any other KDF; [kdf_mode] is present for the counter mode
    only. *)
Theorem X15_derivation_fields
    (p : Policy.t) (contextRaw : string) (resp : Response.t) :
  describe p contextRaw = Returns (Some resp) None ->
  let field := Data_get (Response.Data resp) in
  field "convergent_encryption"
    = (if Policy.Derived p
       then Some (VBool (Policy.ConvergentEncryption p)) else None)
  /\ field "convergent_encryption_version"
     = (if Policy.Derived p && Policy.ConvergentEncryption p
        then Some (VInt (Policy.ConvergentVersion p)) else None)
  /\ field "kdf"
     = (if Policy.Derived p
        then match Policy.KDF_ p with
             | Kdf_hmac_sha256_counter => Some (VString "hmac-sha256-counter")
             | Kdf_hkdf_sha256 => Some (VString "hkdf_sha256")
             | Kdf_other _ => None
             end
        else None)
  /\ field "kdf_mode"
     = (if Policy.Derived p
        then match Policy.KDF_ p with
             | Kdf_hmac_sha256_counter => Some (VString "hmac-sha256-counter")
             | _ => None
             end
        else None).
Proof.
  intros H field. subst field.
  repeat split;
    (rewrite (describe_success_fields p contextRaw resp _ H) by early_field;
     header_cases p).
Qed.

(** X16: a description that succeeds has [backup_info] exactly when the
    policy has a [BackupInfo], and [restore_info] exactly when it has a
    [RestoreInfo]; each holds the time and the version of the record. *)
Theorem X16_backup_and_restore_info
    (p : Policy.t) (contextRaw : string) (resp : Response.t) :
  describe p contextRaw = Returns (Some resp) None ->
  Data_get (Response.Data resp) "backup_info"
    = option_map
        (fun i => VMap [("time", VTime (BackupInfo.Time_ i));
                        ("version", VInt (BackupInfo.Version i))])
        (Policy.BackupInfo p)
  /\ Data_get (Response.Data resp) "restore_info"
     = option_map
         (fun i => VMap [("time", VTime (BackupInfo.Time_ i));
                         ("version", VInt (BackupInfo.Version i))])
         (Policy.RestoreInfo p).
Proof.
  intros H.
  split;
    (rewrite (describe_success_fields p contextRaw resp _ H) by early_field;
     header_cases p).
Qed.

(** X19: the [name] a description gives the versions of an Ed25519 or RSA
    policy is the very string [pathPolicyWrite] accepts in the [type] field
    for the type of the policy; the name of the versions of an ECDSA policy
    is the name of the curve, which [pathPolicyWrite] does not accept. *)
Theorem X19_version_name_and_type_field
    (p : Policy.t) (context : bytes) (k : string) (v : KeyEntry.t)
    (key : asymKey.t) :
  asym_turn p context k v = Next key ->
  (Policy.Type_ p = KeyType_ED25519 \/ Policy.Type_ p = KeyType_RSA2048
   \/ Policy.Type_ p = KeyType_RSA4096 ->
   keyType_of_string (asymKey.Name key) = Some (Policy.Type_ p))
  /\ (Policy.Type_ p = KeyType_ECDSA_P256 \/ Policy.Type_ p = KeyType_ECDSA_P384
      \/ Policy.Type_ p = KeyType_ECDSA_P521 ->
      keyType_of_string (asymKey.Name key) = None).
Proof.
  unfold asym_turn. intros H. split.
  - intros [Ht | [Ht | Ht]]; rewrite Ht in H |- *;
      break_match_in H; try discriminate H; injection H as <-; reflexivity.
  - intros [Ht | [Ht | Ht]]; rewrite Ht in H;
      injection H as <-; reflexivity.
Qed.

End DescribeContents.

(** X9, on a symmetric policy with derivation and a backup record. *)
Lemma X9_symmetric_keys_witness :
  @describe Demo.backend (Demo.openpgp false) Demo.backed_up_policy "" =
    Returns
      (Some (Response.mk
               (Data_set (@describe_header Demo.backend Demo.backed_up_policy)
                  "keys" (VInt64Map [("1", 1500000000%Z)])) []))
      None.
Proof.
  apply (@X9_symmetric_keys Demo.backend (Demo.openpgp false)
           Demo.backed_up_policy "" []);
    reflexivity.
Defined.

(** X10, on the P-384 policy read with a context, and on the Ed25519 policy
    without derivation. *)
Lemma X10_stored_public_key_witness :
  @describe Demo.backend (Demo.openpgp false) Demo.ec_policy "QUJD" =
    Returns
      (Some (Response.mk
               (Data_set (@describe_header Demo.backend Demo.ec_policy) "keys"
                  (VKeysMap
                     [("1", asymKey.Map
                              (asymKey.mk "P-384" "PEM of version 1"
                                 (mkTime (1500000000 + unixToInternal) 0)));
                      ("2", asymKey.Map
                              (asymKey.mk "P-384" "PEM of version 2"
                                 (mkTime 63700000000 5)))])) []))
      None
  /\ @describe Demo.backend (Demo.openpgp false) Demo.ed_plain_policy "QUJD" =
       Returns
         (Some (Response.mk
                  (Data_set (@describe_header Demo.backend Demo.ed_plain_policy)
                     "keys"
                     (VKeysMap
                        [("1", asymKey.Map
                                 (asymKey.mk "ed25519" "cached key"
                                    (mkTime (1500000000 + unixToInternal) 0)))]))
                  []))
         None.
Proof.
  split.
  - apply (@X10_stored_public_key Demo.backend (Demo.openpgp false)
             Demo.ec_policy "QUJD" [x41; x42; x43]);
      [ right; left; reflexivity | reflexivity ].
  - apply (@X10_stored_public_key Demo.backend (Demo.openpgp false)
             Demo.ed_plain_policy "QUJD" [x41; x42; x43]);
      [ right; right; right; split; reflexivity | reflexivity ].
Defined.

(** X11, on an OpenPGP policy whose ring has the identity [AB]. *)
Lemma X11_openpgp_description_witness :
  exists resp,
    @describe Demo.backend (Demo.openpgp false) Demo.pgp_policy ""
      = Returns (Some resp) None
    /\ Data_get (Response.Data resp) "real_name" = Some (VString "Alice")
    /\ Data_get (Response.Data resp) "email"
       = Some (VString "alice@example.org")
    /\ Data_get (Response.Data resp) "comment" = Some (VString "test key")
    /\ exists retKeys,
         Data_get (Response.Data resp) "keys" = Some (VKeysMap retKeys)
         /\ Forall2
              (fun kv entry =>
                 exists pubkey idkey,
                   @extractOpenPGP (Demo.openpgp false)
                     (KeyEntry.Key (snd kv)) openpgp_PublicKeyType
                   = (pubkey, idkey, None)
                   /\ entry =
                        (fst kv,
                         asymKey.Map
                           (asymKey.mk
                              (if String.eqb idkey "" then "openpgp" else idkey)
                              pubkey (reported_creation_time (snd kv)))))
              (Policy.Keys Demo.pgp_policy) retKeys.
Proof.
  eexists. split; [ reflexivity | ].
  apply (@X11_openpgp_description Demo.backend (Demo.openpgp false)
           Demo.pgp_policy ""); reflexivity.
Defined.

(** X12, on an OpenPGP policy whose stored ring has no entity. *)
Lemma X12_openpgp_failure_surfaces_witness :
  exists err k v pubkey idkey,
    @describe Demo.backend (Demo.openpgp false) Demo.pgp_empty_policy ""
      = Returns None (Some err)
    /\ In (k, v) (Policy.Keys Demo.pgp_empty_policy)
    /\ @extractOpenPGP (Demo.openpgp false) (KeyEntry.Key v)
         openpgp_PublicKeyType = (pubkey, idkey, Some err).
Proof.
  apply (@X12_openpgp_failure_surfaces Demo.backend (Demo.openpgp false)
           Demo.pgp_empty_policy "" []);
    [ reflexivity | reflexivity | ].
  exists "1", (Demo.entry [] (mkTime 0 0) 1500000000 None), "", "",
    (fmt_Errorf "No entities found in OpenPGP key ring").
  split; [ left; reflexivity | reflexivity ].
Defined.

(** X13, on the P-384 policy, which has the versions 1 and 2. *)
Lemma X13_versions_are_listed_witness :
  exists resp table,
    @describe Demo.backend (Demo.openpgp false) Demo.ec_policy ""
      = Returns (Some resp) None
    /\ Data_get (Response.Data resp) "keys" = Some table
    /\ table_versions table = Some ["1"; "2"].
Proof.
  pose proof (@X13_versions_are_listed Demo.backend (Demo.openpgp false)
                Demo.ec_policy "" _ eq_refl) as [table [H1 H2]].
  eexists. exists table. split; [ reflexivity | ]. split; assumption.
Defined.

(** X14, X15 and X16, on a symmetric policy with derivation by the counter
    mode, convergent encryption and a backup record. *)
Lemma X14_description_echoes_policy_witness :
  exists resp,
    @describe Demo.backend (Demo.openpgp false) Demo.backed_up_policy ""
      = Returns (Some resp) None
    /\ Data_get (Response.Data resp) "name" = Some (VString "bk")
    /\ Data_get (Response.Data resp) "type" = Some (VString "aes256-gcm96").
Proof.
  pose proof (@X14_description_echoes_policy Demo.backend (Demo.openpgp false)
                Demo.backed_up_policy "" _ eq_refl) as [H1 [H2 _]].
  eexists. split; [ reflexivity | ]. split; assumption.
Defined.

Lemma X15_derivation_fields_witness :
  exists resp,
    @describe Demo.backend (Demo.openpgp false) Demo.backed_up_policy ""
      = Returns (Some resp) None
    /\ Data_get (Response.Data resp) "convergent_encryption"
       = Some (VBool true)
    /\ Data_get (Response.Data resp) "convergent_encryption_version"
       = Some (VInt 2)
    /\ Data_get (Response.Data resp) "kdf"
       = Some (VString "hmac-sha256-counter")
    /\ Data_get (Response.Data resp) "kdf_mode"
       = Some (VString "hmac-sha256-counter").
Proof.
  pose proof (@X15_derivation_fields Demo.backend (Demo.openpgp false)
                Demo.backed_up_policy "" _ eq_refl) as [H1 [H2 [H3 H4]]].
  eexists. split; [ reflexivity | ].
  split; [ exact H1 | ]. split; [ exact H2 | ]. split; [ exact H3 | exact H4 ].
Defined.

Lemma X16_backup_and_restore_info_witness :
  exists resp,
    @describe Demo.backend (Demo.openpgp false) Demo.backed_up_policy ""
      = Returns (Some resp) None
    /\ Data_get (Response.Data resp) "backup_info"
       = Some (VMap [("time", VTime (mkTime 63700000000 0));
                     ("version", VInt 1)])
    /\ Data_get (Response.Data resp) "restore_info" = None.
Proof.
  pose proof (@X16_backup_and_restore_info Demo.backend (Demo.openpgp false)
                Demo.backed_up_policy "" _ eq_refl) as [H1 H2].
  eexists. split; [ reflexivity | ]. split; assumption.
Defined.

(** X19, on the turn of the RSA policy of the store. *)
Lemma X19_version_name_and_type_field_witness :
  exists key,
    @asym_turn Demo.backend (Demo.openpgp false) Demo.rsa_policy [] "1"
      (Demo.entry [] (mkTime 0 0) 1500000000
         (Some (rsa.mkPrivateKey (rsa.mkPublicKey 3233 17) 2753)))
    = Next key
    /\ keyType_of_string (asymKey.Name key) = Some KeyType_RSA2048.
Proof.
  eexists. split; [ reflexivity | ].
  apply (@X19_version_name_and_type_field Demo.backend (Demo.openpgp false)
           Demo.rsa_policy [] "1"
           (Demo.entry [] (mkTime 0 0) 1500000000
              (Some (rsa.mkPrivateKey (rsa.mkPublicKey 3233 17) 2753)))
           _ eq_refl).
  right. left. reflexivity.
Defined.

(** ** Further edge behaviour *)

Lemma keyType_of_string_Some (t : string) (kt : KeyType) :
  keyType_of_string t = Some kt -> t = key_type_name kt.
Proof.
  unfold keyType_of_string.
  repeat match goal with
  | |- context [String.eqb t ?s] =>
      destruct (String.eqb t s) eqn:?;
      [ match goal with
        | H : String.eqb t s = true |- _ =>
            apply String.eqb_eq in H; subst t;
            intros E; injection E as <-; reflexivity
        end | ]
  end.
  discriminate.
Qed.

(** X8: the switch on the [type] field selects a key type by one name only:
    a name selects the type [kt] exactly when it is the name of [kt] and
    [kt] is one of the ten types of the switch, so two different names never
    create the same kind of key. *)
Theorem X8_type_names_are_distinct (t : string) (kt : KeyType) :
  keyType_of_string t = Some kt
  <-> t = key_type_name kt /\ key_type_name kt <> EmptyString.
Proof.
  split.
  - intros H. split; [ apply keyType_of_string_Some; exact H | ].
    destruct kt; try discriminate.
    pose proof (keyType_of_string_Some _ _ H) as E. cbn in E. subst t.
    discriminate H.
  - intros [-> Hne]. destruct kt; try reflexivity. elim Hne. reflexivity.
Qed.

Section DerivationFailure.
Context {B : Backend} {PGP : OpenPGPLib}.

(** X21: for an Ed25519 policy with derivation, read with a context that
    decodes to at least one byte, when every version key is a number and the
    derivation fails for some version, the call returns no response and the
    error [failed to derive key to return public component]: the error of
    the derivation engine itself is not passed on. *)
Theorem X21_derivation_error_is_replaced
    (p : Policy.t) (contextRaw : string) (context : bytes) :
  Policy.Type_ p = KeyType_ED25519 ->
  Policy.Derived p = true ->
  decode_context contextRaw = inl context ->
  context <> [] ->
  (forall k v, In (k, v) (Policy.Keys p) ->
               exists ver, strconv_Atoi k = inl ver) ->
  (exists k v ver derived e,
     In (k, v) (Policy.Keys p)
     /\ strconv_Atoi k = inl ver
     /\ Policy_DeriveKey p context ver 32 = (derived, Some e)) ->
  describe p contextRaw =
    Returns None
      (Some (fmt_Errorf "failed to derive key to return public component")).
Proof.
  intros Ht Hd Hc Hne Hall [k [v [ver [derived [e [Hin [Hv Hk]]]]]]].
  assert (Ha : asymmetric_case (Policy.Type_ p) = true)
    by (rewrite Ht; reflexivity).
  destruct (range_asym_Leave p context (Policy.Keys p))
    as [k1 [v1 [err [Hin1 [Hturn1 Hr]]]]].
  - intros k' v' msg _. apply asym_turn_ed_no_Crash. exact Ht.
  - exists k, v. eexists. split; [ exact Hin | ].
    unfold asym_turn. rewrite Ht, Hd, Hv, Hk.
    destruct context; [ elim Hne; reflexivity | reflexivity ].
  - rewrite (describe_asymmetric p contextRaw context Hc Ha), Hr.
    destruct (asym_turn_ed_Leave p context k1 v1 err Ht Hd Hne Hturn1)
      as [[e1 [He1 _]] | ->]; [ | reflexivity ].
    destruct (Hall k1 v1 Hin1) as [ver1 Hv1]. rewrite Hv1 in He1.
    discriminate He1.
Qed.

(** X22: the creation time a turn reports is the zero time only when the
    version has no modern time stamp and its legacy epoch is the one of the
    zero time itself, 62135596800 seconds before 1970: for a legacy epoch
    that is not negative the reported time is never the zero time, and a
    version without any time stamp is reported as created in 1970. *)
Theorem X22_reported_time_is_seldom_zero
    (p : Policy.t) (context : bytes) (k : string) (v : KeyEntry.t)
    (key : asymKey.t) :
  asym_turn p context k v = Next key ->
  Time_IsZero (asymKey.CreationTime key) = true ->
  Time_IsZero (KeyEntry.CreationTime v) = true
  /\ KeyEntry.DeprecatedCreationTime v = (- 62135596800)%Z.
Proof.
  intros H Hz. rewrite (asym_turn_CreationTime p context k v key H) in Hz.
  unfold reported_creation_time in Hz.
  destruct (Time_IsZero (KeyEntry.CreationTime v)) eqn:E;
    [ | rewrite E in Hz; discriminate Hz ].
  split; [ reflexivity | ].
  unfold Time_IsZero, time_Unix, unixToInternal in Hz. cbn [sec nsec] in Hz.
  apply andb_true_iff in Hz. destruct Hz as [Hs _].
  apply Z.eqb_eq in Hs. lia.
Qed.

End DerivationFailure.

(** X21, on the Ed25519 policy of the store, over an engine that fails. *)
Lemma X21_derivation_error_is_replaced_witness :
  @describe Demo.backend_without_engine (Demo.openpgp false)
    Demo.ed_policy "QUJD" =
    Returns None
      (Some (fmt_Errorf "failed to derive key to return public component")).
Proof.
  apply (@X21_derivation_error_is_replaced Demo.backend_without_engine
           (Demo.openpgp false) Demo.ed_policy "QUJD" [x41; x42; x43]);
    [ reflexivity | reflexivity | reflexivity | discriminate | | ].
  - intros k v [E|[E|[]]]; injection E as <- <-; eexists; reflexivity.
  - exists "1", (Demo.entry Demo.seed (mkTime 0 0) 1500000000 None), 1%Z,
      [], (fmt_Errorf "requested version for derivation is not available").
    split; [ left; reflexivity | ]. split; reflexivity.
Defined.

(** X22, on a version whose two time stamps are those of the zero time. *)
Lemma X22_reported_time_is_seldom_zero_witness :
  @asym_turn Demo.backend (Demo.openpgp false) Demo.ec_policy [] "1"
    (KeyEntry.mk [] (- 62135596800) (mkTime 0 0) "" None)
  = Next (asymKey.mk "P-384" "" (mkTime 0 0))
  /\ Time_IsZero
       (KeyEntry.CreationTime
          (KeyEntry.mk [] (- 62135596800) (mkTime 0 0) "" None)) = true
  /\ KeyEntry.DeprecatedCreationTime
       (KeyEntry.mk [] (- 62135596800) (mkTime 0 0) "" None)
     = (- 62135596800)%Z.
Proof.
  split; [ reflexivity | ].
  apply (@X22_reported_time_is_seldom_zero Demo.backend (Demo.openpgp false)
           Demo.ec_policy [] "1"
           (KeyEntry.mk [] (- 62135596800) (mkTime 0 0) "" None)
           (asymKey.mk "P-384" "" (mkTime 0 0)));
    reflexivity.
Defined.

(** * The propagation of errors *)

Section Propagation.
Context {B : Backend} {PGP : OpenPGPLib} {D : Deleter}.




End Propagation.

